(** * agent-changelog: the webhook event pipeline

    A shallow embedding of the changelog agent
    ([src/agents/controller/index.ts], [src/utils/github.ts],
    [src/utils/devin.ts], [src/utils/events.ts]) and the properties of its
    control flow: which external collaborator is called, in which order,
    and which JSON response the caller sees.

    Asynchronous calls are sequential ([await] everywhere), so the agent is
    a program in a state-and-exception monad.  The key-value store is the
    state; every call to an external collaborator is recorded in an effect
    log; the answers of the collaborators (signature check, the two language
    models, the HTTP endpoint, the store's failures, the clock) are read
    from a [World] record. *)

From Stdlib Require Import ZArith String Ascii List.
From stdpp Require Import base option gmap strings list pretty.

Local Open Scope string_scope.
Local Open Scope Z_scope.
Local Set Warnings "-register-all".

(** ** JavaScript values that cross the boundary *)

(** JSON documents as [JSON.parse] produces them.  Numbers are integers
    here: the agent only ever tests a number for truthiness. *)
Inductive JValue : Type :=
  | JNull
  | JBool (b : bool)
  | JNum (n : Z)
  | JStr (s : string)
  | JArr (items : list JValue)
  | JObj (fields : list (string * JValue)).

(** Lookup in an association list of object fields. *)
Fixpoint assoc {A : Type} (k : string) (l : list (string * A)) : option A :=
  match l with
  | [] => None
  | (k', v) :: rest => if String.eqb k k' then Some v else assoc k rest
  end.

(** A thrown value, as the [catch] clauses see it:
    [error instanceof Error ? error.message : String(error)]. *)
Record Exn : Type := Error { message : string }.

Inductive Outcome (A : Type) : Type :=
  | Ok (a : A)
  | Throw (e : Exn).
Arguments Ok {A} a.
Arguments Throw {A} e.

(** The [TypeError] raised when a property is taken from [null].  The
    wording is the engine's (JavaScriptCore, on which Bun runs) and follows
    the form of the access: the agent destructures [payload] from the
    request body and reads [sessionId] from [data]. *)
Definition nullPropertyError (prop : string) : Exn :=
  Error (if String.eqb prop "payload"
         then "Cannot destructure property 'payload' from null or undefined value"
         else "null is not an object (evaluating 'data." +:+ prop +:+ "')").

(** [v.prop] for a parsed JSON value [v]: [undefined] is [None]. *)
Definition getProp (v : JValue) (prop : string) : Outcome (option JValue) :=
  match v with
  | JNull => Throw (nullPropertyError prop)
  | JObj fields => Ok (assoc prop fields)
  | _ => Ok None
  end.

(** [v?.prop] where [v] may be [undefined]. *)
Definition getPropOpt (v : option JValue) (prop : string) : option JValue :=
  match v with
  | Some (JObj fields) => assoc prop fields
  | _ => None
  end.

(** JavaScript truthiness of a possibly undefined JSON value. *)
Definition truthy (v : option JValue) : bool :=
  match v with
  | None => false
  | Some JNull => false
  | Some (JBool b) => b
  | Some (JNum n) => negb (n =? 0)
  | Some (JStr s) => negb (String.eqb s "")
  | Some (JArr _) => true
  | Some (JObj _) => true
  end.

(** [v || d]. *)
Definition orDefault (v : option JValue) (d : JValue) : JValue :=
  match v with
  | Some x => if truthy v then x else d
  | None => d
  end.

(** [v !== s] for a string literal [s]. *)
Definition notStrictEqStr (v : option JValue) (s : string) : bool :=
  match v with
  | Some (JStr t) => negb (String.eqb t s)
  | _ => true
  end.

(** Truthiness of an optional string ([process.env.X], a header). *)
Definition truthyStr (v : option string) : bool :=
  match v with
  | Some s => negb (String.eqb s "")
  | None => false
  end.

(** ** src/utils/events.ts *)

Definition generateEventKey (repositoryName version eventType : string) : string :=
  "changelog-event:" +:+ repositoryName +:+ ":" +:+ version +:+ ":" +:+ eventType.

(** ** The data model of the agent *)

Inductive EventType : Type := release | tag | other.

Definition eventTypeName (t : EventType) : string :=
  match t with
  | release => "release"
  | tag => "tag"
  | other => "other"
  end.

(** An object accepted by [WebhookAnalysisSchema]. *)
Record WebhookAnalysis : Type := {
  isReleaseOrTagEvent : bool;
  eventType : EventType;
  repositoryName : string;
  version : string;
  reasoning : string;
  isSupported : bool;
}.

Record Repository : Type := {
  name : string;
  url : string;
  type : string;
}.

Definition SUPPORTED_REPOSITORIES : list Repository :=
  [ {| name := "cli"; url := "https://github.com/agentuity/cli"; type := "CLI Tool" |};
    {| name := "sdk-js"; url := "https://github.com/agentuity/sdk-js"; type := "JavaScript SDK" |};
    {| name := "sdk-py"; url := "https://github.com/agentuity/sdk-py"; type := "Python SDK" |} ].

(** The value written to the store after a dispatch. *)
Record ProcessedEventRecord : Type := {
  repository : string;
  recVersion : string;
  recEventType : string;
  processedAt : string;
  devinSessionId : JValue;
}.

(** The object returned by [callDevinAPI]. *)
Record DevinResult : Type := {
  sessionId : JValue;
  status : Z;
}.

(** What [fetch] resolves to: the flags of the response and what its
    [text()] and [json()] readers give. *)
Record HttpResponse : Type := {
  ok : bool;
  statusCode : Z;
  bodyText : Outcome string;
  bodyJson : Outcome JValue;
}.

(** The result object of [verifyGitHubWebhook]. *)
Record VerificationResult : Type := {
  success : bool;
  vmessage : option string;
}.

(** The JSON object handed to [resp.json]. *)
Definition Response : Type := list (string * JValue).

Definition responseStatus (r : Response) : option JValue := assoc "status" r.

(** ** The outside world and the monad of the agent *)

(** Everything the agent reads from outside during one delivery: the
    environment, the request, and the answers of its collaborators.  The
    request body is read several times with [req.data.text()]; every read
    gives the same answer.  [verify] is the function of
    [@octokit/webhooks-methods]; [generateObject] and [generateText] are
    indexed by their prompt, and [fetch] by the prompt it posts (the URL,
    the method and the headers are constants of [callDevinAPI]).  A fault of
    the key-value service is the exception its call throws.  The logger and
    [resp.json] do not throw. *)
Record World : Type := {
  env_AGENTUITY_ENVIRONMENT : option string;
  env_GITHUB_WEBHOOK_SECRET : option string;
  req_headers : option (gmap string string);
  req_data_text : Outcome string;
  req_data_object : Outcome JValue;
  verify : string -> string -> string -> Outcome bool;
  generateObject : string -> Outcome WebhookAnalysis;
  generateText : string -> Outcome string;
  fetch : string -> Outcome HttpResponse;
  kv_get_fault : option Exn;
  kv_set_fault : option Exn;
  now : string;
}.

Inductive LogLevel : Type := info | error.

(** Calls that leave the agent, in the order they happen. *)
Inductive Effect : Type :=
  | ELog (level : LogLevel) (msg : string)
  | EVerify (secret payload signature : string)
  | EGenerateObject (prompt : string)
  | EKvGet (ns key : string)
  | EGenerateText (prompt : string)
  | ECallDevinAPI (prompt : string)
  | EFetch (prompt : string)
  | EKvSet (ns key : string) (value : ProcessedEventRecord).

(** The key-value service: namespace and key to stored value. *)
Abbreviation Store := (gmap (string * string) ProcessedEventRecord).

Definition M (A : Type) : Type := Store -> Outcome A * Store * list Effect.

Definition ret {A : Type} (a : A) : M A := fun s => (Ok a, s, []).

Definition throw {A : Type} (e : Exn) : M A := fun s => (Throw e, s, []).

Definition bind {A B : Type} (m : M A) (k : A -> M B) : M B :=
  fun s =>
    match m s with
    | (Ok a, s1, t1) =>
        match k a s1 with
        | (r, s2, t2) => (r, s2, (t1 ++ t2)%list)
        end
    | (Throw e, s1, t1) => (Throw e, s1, t1)
    end.

(** [try { m } catch (e) { h e }]: the store and the log keep what [m] did
    before it threw. *)
Definition tryCatch {A : Type} (m : M A) (h : Exn -> M A) : M A :=
  fun s =>
    match m s with
    | (Ok a, s1, t1) => (Ok a, s1, t1)
    | (Throw e, s1, t1) =>
        match h e s1 with
        | (r, s2, t2) => (r, s2, (t1 ++ t2)%list)
        end
    end.

Definition emit (e : Effect) : M unit := fun s => (Ok tt, s, [e]).

Definition lift {A : Type} (o : Outcome A) : M A :=
  match o with
  | Ok a => ret a
  | Throw e => throw e
  end.

Notation "'let!' x ':=' m 'in' k" := (bind m (fun x => k))
  (at level 10, x name, m at level 100, k at level 200, only parsing).
Notation "'do!' m 'in' k" := (bind m (fun _ => k))
  (at level 10, m at level 100, k at level 200, only parsing).

Definition log (level : LogLevel) (msg : string) : M unit := emit (ELog level msg).

(** [ctx.kv.get(ns, key)], reduced to its [exists] field. *)
Definition kv_get (w : World) (ns key : string) : M bool :=
  do! emit (EKvGet ns key) in
  match kv_get_fault w with
  | Some e => throw e
  | None => fun s => (Ok (bool_decide (is_Some (s !! (ns, key)))), s, [])
  end.

(** [ctx.kv.set(ns, key, value)]. *)
Definition kv_set (w : World) (ns key : string) (value : ProcessedEventRecord) : M unit :=
  do! emit (EKvSet ns key value) in
  match kv_set_fault w with
  | Some e => throw e
  | None => fun s => (Ok tt, <[(ns, key) := value]> s, [])
  end.

(** ** src/utils/github.ts *)

(** [headers?.["x-hub-signature-256"]]. *)
Definition signatureHeader (w : World) : option string :=
  req_headers w ≫= (.!! "x-hub-signature-256").

(** Past the two truthiness tests the signature and the secret are present,
    so [default ""] only unwraps them. *)
Definition verifyGitHubWebhook (w : World) : M VerificationResult :=
  let signature := signatureHeader w in
  let webhookSecret := env_GITHUB_WEBHOOK_SECRET w in
  if negb (truthyStr signature) then
    do! log error "No X-Hub-Signature-256 header found in the request" in
    ret {| success := false; vmessage := Some "Missing X-Hub-Signature-256 header" |}
  else if negb (truthyStr webhookSecret) then
    do! log error "GITHUB_WEBHOOK_SECRET environment variable not set" in
    ret {| success := false;
           vmessage := Some "Server configuration error: webhook secret not configured" |}
  else
    tryCatch
      (let! payload := lift (req_data_text w) in
       do! emit (EVerify (default "" webhookSecret) payload (default "" signature)) in
       let! isValid := lift (verify w (default "" webhookSecret) payload (default "" signature)) in
       if negb isValid then
         do! log error "Invalid webhook signature" in
         ret {| success := false; vmessage := Some "Invalid webhook signature" |}
       else
         do! log info "Webhook signature verified successfully" in
         ret {| success := true; vmessage := None |})
      (fun verificationError =>
         do! log error "Error verifying webhook signature: %o" in
         ret {| success := false; vmessage := Some "Error verifying webhook signature" |}).

(** ** src/utils/devin.ts *)

Definition callDevinAPI (w : World) (prompt : string) : M DevinResult :=
  do! emit (ECallDevinAPI prompt) in
  tryCatch
    (do! log info "Calling Devin API" in
     do! emit (EFetch prompt) in
     let! response := lift (fetch w prompt) in
     if negb (ok response) then
       let! text := lift (bodyText response) in
       throw (Error ("Devin API returned " +:+ pretty (statusCode response) +:+ ": " +:+ text))
     else
       let! data := lift (bodyJson response) in
       let! sid := lift (getProp data "sessionId") in
       do! log info "Devin API response:" in
       ret {| sessionId := orDefault sid (JStr "unknown");
              status := statusCode response |})
    (fun err =>
       do! log error "Error calling Devin API: %o" in
       throw (Error ("Failed to call Devin API: " +:+ message err))).

(** ** src/agents/controller/index.ts *)

Definition nl : string := String "010"%char "".
Definition dq : string := String "034"%char "".

(** A template literal, line by line. *)
Definition lines (l : list string) : string := String.concat nl l.

Definition catalogLine (r : Repository) : string :=
  name r +:+ " - " +:+ type r +:+ " - " +:+ url r.

(** The prompt of step 1, around the raw payload text. *)
Definition analysisPrompt (payloadText : string) : string :=
  lines
    [ "";
      "You are a GitHub webhook analyst for a changelog automation system.";
      "";
      "Analyze this GitHub webhook payload and extract the following information:";
      "";
      payloadText;
      "";
      "Consider:";
      "1. Supported repositories: " +:+ String.concat ", " (map catalogLine SUPPORTED_REPOSITORIES);
      "2. Event types: release or tag";
      "3. If this is a release, the version should be in release.tag_name";
      "4. If this is a tag, the version should be the last part of the ref (format: refs/tags/v1.0.0)";
      "5. For release events, check if action is " +:+ dq +:+ "published" +:+ dq
        +:+ " - only process published releases";
      "6. For tag events, check if created is true - only process newly created tags";
      "7. If the release or tag contains " +:+ dq +:+ "-next" +:+ dq
        +:+ " in the version, it should be ignored";
      "";
      "Provide your analysis based on the schema requirements.";
      "" ].

(** The prompt of step 2. *)
Definition devinPromptRequest (analysis : WebhookAnalysis) (payloadText : string) : string :=
  lines
    [ "";
      "Generate a detailed prompt for Devin AI to update a changelog. ";
      "Devin will use this prompt to update the changelog for a given repository, update the docs changelog too, etc.";
      "";
      "Repository: " +:+ repositoryName analysis;
      "Event Type: " +:+ eventTypeName (eventType analysis);
      "Version: " +:+ (if String.eqb (version analysis) "" then "unknown - figure it out"
                       else version analysis);
      "";
      "Consider:";
      "- Link all the PRs that were merged in this release by comparing all the changes since the previous release";
      "- Changelogs should follow Keep a Changelog format (https://keepachangelog.com/)";
      "- Include repository-specific considerations";
      "- Changelogs in the repo can be found in the CHANGELOG.md file";
      "- Create a PR and ping the team on Slack when it is created";
      "";
      "MUST INCLUDE THIS VERBIAGE: The documentation changelog page for the respective topic needs ";
      "to be updated in the docs repository: https://github.com/agentuity/docs.";
      "Don't create a new page, we already have them (sdk-js, sdk-py, etc). Make sure you format ";
      "following the previous release examples";
      "";
      "For the docs repo, be aware that the table of contents are auto-generated from the markdown headings.";
      "So don't add " +:+ dq +:+ "changes" +:+ dq
        +:+ " as a heading, make it a bolded line item instead. The version should be the heading.";
      "";
      "<IMPORTANT>";
      "There are is an existing changelog file so use that. ";
      "DO NOT create a new file anywhere. ";
      "No new links in the doc repo, no new .md file, etc.  ";
      "Just use the existing changelog file at the target.";
      "Do NOT remove old release notes.  ";
      "Add new release notes to the top of the file  after the heading and any ancillary text.  ";
      "A good way to reference is look at the last several release / changelog notes";
      "in the file and put it just before that one.";
      "Make sure you match the style and format of the existing notes.";
      "</IMPORTANT>";
      "";
      "Original payload information:";
      payloadText;
      "" ].

Definition KV_NAMESPACE : string := "agent-changelog-processed-events".

(** [resp.json(obj)]. *)
Definition resp_json (obj : list (string * JValue)) : M Response := ret obj.

Definition eventKeyOf (analysis : WebhookAnalysis) : string :=
  generateEventKey (repositoryName analysis) (version analysis)
                   (eventTypeName (eventType analysis)).

(** Steps 2 and 3 and the ledger write (lines 154 to 222). *)
Definition dispatchStage (w : World) (analysis : WebhookAnalysis) (eventKey payloadText : string)
    : M Response :=
  do! emit (EGenerateText (devinPromptRequest analysis payloadText)) in
  let! devinPrompt := lift (generateText w (devinPromptRequest analysis payloadText)) in
  do! log info "Generated Devin prompt" in
  let! devinResponse := callDevinAPI w devinPrompt in
  do! kv_set w KV_NAMESPACE eventKey
        {| repository := repositoryName analysis;
           recVersion := version analysis;
           recEventType := eventTypeName (eventType analysis);
           processedAt := now w;
           devinSessionId := sessionId devinResponse |} in
  resp_json
    [ ("status", JStr "success");
      ("repository", JStr (repositoryName analysis));
      ("eventType", JStr (eventTypeName (eventType analysis)));
      ("version", JStr (version analysis));
      ("devinSessionId", sessionId devinResponse) ].

(** From the payload read to the published-release check (lines 65 to 152). *)
Definition classifyStage (w : World) : M Response :=
  let! body := lift (req_data_object w) in
  let! payload := lift (getProp body "payload") in
  let! payloadText := lift (req_data_text w) in
  do! emit (EGenerateObject (analysisPrompt payloadText)) in
  let! analysis := lift (generateObject w (analysisPrompt payloadText)) in
  do! log info "Webhook analysis:" in
  if negb (isReleaseOrTagEvent analysis) || negb (isSupported analysis) then
    resp_json [ ("status", JStr "ignored"); ("reason", JStr (reasoning analysis)) ]
  else
    let eventKey := eventKeyOf analysis in
    let! existingEvent := kv_get w KV_NAMESPACE eventKey in
    do! log info "Existing event:" in
    if existingEvent then
      do! log info "Event already processed:" in
      resp_json
        [ ("status", JStr "already_processed");
          ("repository", JStr (repositoryName analysis));
          ("eventType", JStr (eventTypeName (eventType analysis)));
          ("version", JStr (version analysis));
          ("message", JStr "This event has already been processed") ]
    else
      match eventType analysis with
      | release =>
          let action := getPropOpt payload "action" in
          if notStrictEqStr action "published" then
            do! log info "Ignoring non-published release event:" in
            resp_json
              [ ("status", JStr "ignored");
                ("reason", JStr "Only published releases are processed") ]
          else dispatchStage w analysis eventKey payloadText
      | _ => dispatchStage w analysis eventKey payloadText
      end.

(** The body of the [try] block. *)
Definition handleWebhook (w : World) : M Response :=
  let! data := lift (req_data_text w) in
  do! log info "Received webhook request" in
  if bool_decide (env_AGENTUITY_ENVIRONMENT w = Some "development") then
    do! log info "Running in local development mode - skipping webhook signature verification" in
    classifyStage w
  else
    let! verificationResult := verifyGitHubWebhook w in
    if negb (success verificationResult) then
      resp_json
        [ ("status", JStr "error");
          ("message", JStr (if truthyStr (vmessage verificationResult)
                            then default "" (vmessage verificationResult)
                            else "Unknown verification error")) ]
    else classifyStage w.

Definition ChangelogAgent (w : World) : M Response :=
  tryCatch (handleWebhook w)
    (fun err =>
       do! log error "Error processing webhook: %o" in
       resp_json [ ("status", JStr "error"); ("message", JStr (message err)) ]).

(** ** Observing one delivery *)

Definition outcomeOf {A : Type} (r : Outcome A * Store * list Effect) : Outcome A := r.1.1.
Definition storeOf {A : Type} (r : Outcome A * Store * list Effect) : Store := r.1.2.
Definition effectsOf {A : Type} (r : Outcome A * Store * list Effect) : list Effect := r.2.

Definition isClassifierCall (e : Effect) : bool :=
  match e with EGenerateObject _ => true | _ => false end.
Definition isStoreLookup (e : Effect) : bool :=
  match e with EKvGet _ _ => true | _ => false end.
Definition isStoreWrite (e : Effect) : bool :=
  match e with EKvSet _ _ _ => true | _ => false end.
Definition isDispatcherCall (e : Effect) : bool :=
  match e with ECallDevinAPI _ => true | _ => false end.
Definition isErrorLog (e : Effect) : bool :=
  match e with ELog error _ => true | _ => false end.

(** The prompts a log shows as posted to the dispatch endpoint. *)
Fixpoint posted (t : list Effect) : list string :=
  match t with
  | [] => []
  | EFetch prompt :: rest => prompt :: posted rest
  | _ :: rest => posted rest
  end.

(** How many effects of a kind a log holds. *)
Definition calls (p : Effect -> bool) (t : list Effect) : nat := length (List.filter p t).

(** A response, not an exception, and with this status. *)
Definition hasStatus (st : string) (o : Outcome Response) : Prop :=
  exists resp, o = Ok resp /\ responseStatus resp = Some (JStr st).

(** The delivery was answered with this status. *)
Definition answered (st : string) (r : Outcome Response * Store * list Effect) : Prop :=
  hasStatus st (outcomeOf r).

(** ** The conditions the properties speak of *)

Definition STATUSES : list string := ["success"; "ignored"; "already_processed"; "error"].

(** The request carries no signature header, or its signature does not
    verify against the configured secret. *)
Definition unauthenticated (w : World) : Prop :=
  signatureHeader w = None
  \/ forall secret payload signature,
       env_GITHUB_WEBHOOK_SECRET w = Some secret ->
       req_data_text w = Ok payload ->
       signatureHeader w = Some signature ->
       verify w secret payload signature <> Ok true.

(** The delivery passes the signature gate (or skips it in development
    mode) and the classifier accepts it with this analysis. *)
Definition accepted (w : World) (analysis : WebhookAnalysis) : Prop :=
  exists (payloadText : string) (body : JValue) (payload : option JValue),
    req_data_text w = Ok payloadText
    /\ req_data_object w = Ok body
    /\ getProp body "payload" = Ok payload
    /\ generateObject w (analysisPrompt payloadText) = Ok analysis
    /\ negb (isReleaseOrTagEvent analysis) || negb (isSupported analysis) = false
    /\ (bool_decide (env_AGENTUITY_ENVIRONMENT w = Some "development") = true
        \/ bool_decide (env_AGENTUITY_ENVIRONMENT w = Some "development") = false
           /\ negb (truthyStr (signatureHeader w)) = false
           /\ negb (truthyStr (env_GITHUB_WEBHOOK_SECRET w)) = false
           /\ verify w (default "" (env_GITHUB_WEBHOOK_SECRET w)) payloadText
                (default "" (signatureHeader w)) = Ok true).

(** The second delivery carries the same request into the same environment,
    and the verifier and the classifier answer as they did before. *)
Definition sameDelivery (w1 w2 : World) : Prop :=
  env_AGENTUITY_ENVIRONMENT w1 = env_AGENTUITY_ENVIRONMENT w2
  /\ env_GITHUB_WEBHOOK_SECRET w1 = env_GITHUB_WEBHOOK_SECRET w2
  /\ req_headers w1 = req_headers w2
  /\ req_data_text w1 = req_data_text w2
  /\ req_data_object w1 = req_data_object w2
  /\ verify w1 = verify w2
  /\ generateObject w1 = generateObject w2.

(** ** Sample deliveries *)

Definition sampleAnalysis (repo ver : string) : WebhookAnalysis :=
  {| isReleaseOrTagEvent := true;
     eventType := release;
     repositoryName := repo;
     version := ver;
     reasoning := "published release of a supported repository";
     isSupported := true |}.

Definition okResponse (body : JValue) : HttpResponse :=
  {| ok := true; statusCode := 200; bodyText := Ok "created"; bodyJson := Ok body |}.

(** A signed delivery in a production environment; the parameters are the
    environment discriminator, the headers, the classifier's answer, the
    answer of the dispatch endpoint and the fault of the store write. *)
Definition sampleWorld (env : option string) (headers : option (gmap string string))
    (analysis : WebhookAnalysis) (action : string)
    (endpoint : Outcome HttpResponse) (setFault : option Exn) : World :=
  {| env_AGENTUITY_ENVIRONMENT := env;
     env_GITHUB_WEBHOOK_SECRET := Some "s3cret";
     req_headers := headers;
     req_data_text := Ok "payload-bytes";
     req_data_object := Ok (JObj [("payload", JObj [("action", JStr action)])]);
     verify := fun secret payload signature =>
                 Ok (String.eqb secret "s3cret" && String.eqb signature "sha256=good");
     generateObject := fun _ => Ok analysis;
     generateText := fun _ => Ok "Update the changelog";
     fetch := fun _ => endpoint;
     kv_get_fault := None;
     kv_set_fault := setFault;
     now := "2025-05-01T00:00:00.000Z" |}.

Definition signedHeaders : option (gmap string string) :=
  Some {[ "x-hub-signature-256" := "sha256=good" ]}.

Definition goodWorld : World :=
  sampleWorld (Some "production") signedHeaders (sampleAnalysis "sdk-js" "v1.4.0") "published"
    (Ok (okResponse (JObj [("sessionId", JStr "devin-1")]))) None.

Definition unsupportedAnalysis : WebhookAnalysis :=
  {| isReleaseOrTagEvent := true; eventType := release;
     repositoryName := "website"; version := "v3.0.0";
     reasoning := "website is not a supported repository";
     isSupported := false |}.

Definition unsupportedWorld : World :=
  sampleWorld (Some "production") signedHeaders unsupportedAnalysis "published"
    (Ok (okResponse (JObj [("sessionId", JStr "devin-1")]))) None.

Definition unsignedDevelopmentWorld : World :=
  sampleWorld (Some "development") None (sampleAnalysis "sdk-js" "v1.4.0") "published"
    (Ok (okResponse (JObj [("sessionId", JStr "devin-1")]))) None.

Definition unsignedWorld : World :=
  sampleWorld (Some "production") None (sampleAnalysis "sdk-js" "v1.4.0") "published"
    (Ok (okResponse (JObj [("sessionId", JStr "devin-1")]))) None.

Definition draftReleaseWorld : World :=
  sampleWorld (Some "production") signedHeaders (sampleAnalysis "sdk-js" "v1.4.0") "created"
    (Ok (okResponse (JObj [("sessionId", JStr "devin-1")]))) None.

Definition serverError : HttpResponse :=
  {| ok := false; statusCode := 500; bodyText := Ok "upstream failure";
     bodyJson := Throw (Error "Unexpected token u in JSON") |}.

Definition failedDispatchWorld : World :=
  sampleWorld (Some "production") signedHeaders (sampleAnalysis "sdk-js" "v1.4.0") "published"
    (Ok serverError) None.

Definition storeFaultWorld : World :=
  sampleWorld (Some "production") signedHeaders (sampleAnalysis "sdk-js" "v1.4.0") "published"
    (Ok (okResponse (JObj [("sessionId", JStr "devin-1")])))
    (Some (Error "kv unavailable")).

Definition handlelessWorld : World :=
  sampleWorld (Some "production") signedHeaders (sampleAnalysis "sdk-js" "v1.4.0") "published"
    (Ok (okResponse (JObj [("state", JStr "queued")]))) None.

Definition handlelessStoreFault : World :=
  sampleWorld (Some "production") signedHeaders (sampleAnalysis "sdk-js" "v1.4.0") "published"
    (Ok (okResponse (JObj [("state", JStr "queued")])))
    (Some (Error "kv unavailable")).

Definition collidingWorld (repo ver : string) : World :=
  sampleWorld (Some "production") signedHeaders (sampleAnalysis repo ver) "published"
    (Ok (okResponse (JObj [("sessionId", JStr "devin-1")]))) None.

(** ** What the further properties speak of *)

(** The four messages with which the verifier turns a request down. *)
Definition VERIFICATION_MESSAGES : list string :=
  [ "Missing X-Hub-Signature-256 header";
    "Server configuration error: webhook secret not configured";
    "Invalid webhook signature";
    "Error verifying webhook signature" ].

(** The calls to the signature function that a log shows. *)
Fixpoint verified (t : list Effect) : list (string * string * string) :=
  match t with
  | [] => []
  | EVerify secret payload signature :: rest => (secret, payload, signature) :: verified rest
  | _ :: rest => verified rest
  end.

(** The signature function accepts the body of the request with the
    configured secret and the signature header. *)
Definition signatureValid (w : World) : Prop :=
  exists secret payload signature,
    env_GITHUB_WEBHOOK_SECRET w = Some secret /\ secret <> ""
    /\ signatureHeader w = Some signature /\ signature <> ""
    /\ req_data_text w = Ok payload
    /\ verify w secret payload signature = Ok true.

(** The dispatch endpoint answers the prompt with a success response whose
    JSON body can be read for a session identifier; [result] is what the
    dispatcher makes of it. *)
Definition dispatchSucceeds (w : World) (prompt : string) (result : DevinResult) : Prop :=
  exists response data sid,
    fetch w prompt = Ok response
    /\ ok response = true
    /\ bodyJson response = Ok data
    /\ getProp data "sessionId" = Ok sid
    /\ result = {| sessionId := orDefault sid (JStr "unknown");
                   status := statusCode response |}.

(** The stages of the pipeline that leave a mark in the log. *)
Inductive Stage : Type :=
  | SVerify | SClassify | SLookup | SSynthesize | SDispatch | SPost | SRecord.

Definition stageOf (e : Effect) : option Stage :=
  match e with
  | ELog _ _ => None
  | EVerify _ _ _ => Some SVerify
  | EGenerateObject _ => Some SClassify
  | EKvGet _ _ => Some SLookup
  | EGenerateText _ => Some SSynthesize
  | ECallDevinAPI _ => Some SDispatch
  | EFetch _ => Some SPost
  | EKvSet _ _ _ => Some SRecord
  end.

(** The stages a log went through, in order. *)
Definition stagesOf (t : list Effect) : list Stage := omap stageOf t.

Definition PIPELINE : list Stage :=
  [SClassify; SLookup; SSynthesize; SDispatch; SPost; SRecord].

Definition isSynthesizerCall (e : Effect) : bool :=
  match e with EGenerateText _ => true | _ => false end.

(** *** The paths of a delivery *)

(** The signature gate lets the request through, and what it logs. *)
Inductive gateOpened (w : World) (payloadText : string) : list Effect -> Prop :=
  | gate_development :
      env_AGENTUITY_ENVIRONMENT w = Some "development" ->
      gateOpened w payloadText
        [ELog info "Running in local development mode - skipping webhook signature verification"]
  | gate_verified (secret signature : string) :
      env_AGENTUITY_ENVIRONMENT w <> Some "development" ->
      env_GITHUB_WEBHOOK_SECRET w = Some secret -> secret <> "" ->
      signatureHeader w = Some signature -> signature <> "" ->
      verify w secret payloadText signature = Ok true ->
      gateOpened w payloadText
        [EVerify secret payloadText signature;
         ELog info "Webhook signature verified successfully"].

(** The signature gate turns the request down, with which message and log. *)
Inductive gateClosed (w : World) (payloadText : string) : string -> list Effect -> Prop :=
  | gate_no_header :
      signatureHeader w = None \/ signatureHeader w = Some "" ->
      gateClosed w payloadText "Missing X-Hub-Signature-256 header"
        [ELog error "No X-Hub-Signature-256 header found in the request"]
  | gate_no_secret (signature : string) :
      signatureHeader w = Some signature -> signature <> "" ->
      env_GITHUB_WEBHOOK_SECRET w = None \/ env_GITHUB_WEBHOOK_SECRET w = Some "" ->
      gateClosed w payloadText "Server configuration error: webhook secret not configured"
        [ELog error "GITHUB_WEBHOOK_SECRET environment variable not set"]
  | gate_invalid (secret signature : string) :
      env_GITHUB_WEBHOOK_SECRET w = Some secret -> secret <> "" ->
      signatureHeader w = Some signature -> signature <> "" ->
      verify w secret payloadText signature = Ok false ->
      gateClosed w payloadText "Invalid webhook signature"
        [EVerify secret payloadText signature; ELog error "Invalid webhook signature"]
  | gate_exception (secret signature : string) (e : Exn) :
      env_GITHUB_WEBHOOK_SECRET w = Some secret -> secret <> "" ->
      signatureHeader w = Some signature -> signature <> "" ->
      verify w secret payloadText signature = Throw e ->
      gateClosed w payloadText "Error verifying webhook signature"
        [EVerify secret payloadText signature;
         ELog error "Error verifying webhook signature: %o"].

(** The request passed the gate, its body parsed to an object whose
    [payload] property is [payload], and the classifier answered with an
    analysis that is a release or tag event of a supported repository. *)
Definition Classified (w : World) (payloadText : string) (g : list Effect)
    (payload : option JValue) (analysis : WebhookAnalysis) : Prop :=
  req_data_text w = Ok payloadText
  /\ gateOpened w payloadText g
  /\ (exists body, req_data_object w = Ok body /\ getProp body "payload" = Ok payload)
  /\ generateObject w (analysisPrompt payloadText) = Ok analysis
  /\ isReleaseOrTagEvent analysis = true
  /\ isSupported analysis = true.

(** A classified event whose key is not in the store and which, when it is
    a release, has the action published. *)
Definition Unseen (w : World) (s : Store) (payloadText : string) (g : list Effect)
    (payload : option JValue) (analysis : WebhookAnalysis) : Prop :=
  Classified w payloadText g payload analysis
  /\ kv_get_fault w = None
  /\ s !! (KV_NAMESPACE, eventKeyOf analysis) = None
  /\ (eventType analysis = release ->
      getPropOpt payload "action" = Some (JStr "published")).

Definition errorResponse (e : Exn) : Response :=
  [ ("status", JStr "error"); ("message", JStr (message e)) ].

Definition successResponse (analysis : WebhookAnalysis) (result : DevinResult) : Response :=
  [ ("status", JStr "success");
    ("repository", JStr (repositoryName analysis));
    ("eventType", JStr (eventTypeName (eventType analysis)));
    ("version", JStr (version analysis));
    ("devinSessionId", sessionId result) ].

Definition recordOf (w : World) (analysis : WebhookAnalysis) (result : DevinResult)
    : ProcessedEventRecord :=
  {| repository := repositoryName analysis;
     recVersion := version analysis;
     recEventType := eventTypeName (eventType analysis);
     processedAt := now w;
     devinSessionId := sessionId result |}.

(** The log of the top-level [catch] clause. *)
Definition CAUGHT : list Effect := [ELog error "Error processing webhook: %o"].

(** The log of a delivery up to the call of a stage. *)
Definition logToClassifier (g : list Effect) (payloadText : string) : list Effect :=
  ELog info "Received webhook request" :: g ++ [EGenerateObject (analysisPrompt payloadText)].

Definition logToLookup (g : list Effect) (payloadText : string) (analysis : WebhookAnalysis)
    : list Effect :=
  logToClassifier g payloadText
  ++ [ELog info "Webhook analysis:"; EKvGet KV_NAMESPACE (eventKeyOf analysis)].

Definition logToSynthesizer (g : list Effect) (payloadText : string)
    (analysis : WebhookAnalysis) : list Effect :=
  logToLookup g payloadText analysis
  ++ [ELog info "Existing event:"; EGenerateText (devinPromptRequest analysis payloadText)].

Definition logToEndpoint (g : list Effect) (payloadText : string)
    (analysis : WebhookAnalysis) (prompt : string) : list Effect :=
  logToSynthesizer g payloadText analysis
  ++ [ELog info "Generated Devin prompt"; ECallDevinAPI prompt;
      ELog info "Calling Devin API"; EFetch prompt].

Definition logToRecord (w : World) (g : list Effect) (payloadText : string)
    (analysis : WebhookAnalysis) (prompt : string) (result : DevinResult) : list Effect :=
  logToEndpoint g payloadText analysis prompt
  ++ [ELog info "Devin API response:";
      EKvSet KV_NAMESPACE (eventKeyOf analysis) (recordOf w analysis result)].

(** Every way a delivery can go: the conditions on the world and the store,
    and the response, the store and the log that result. *)
Inductive Delivery (w : World) (s : Store)
    : Outcome Response -> Store -> list Effect -> Prop :=
  | D_unreadable e :
      req_data_text w = Throw e ->
      Delivery w s (Ok (errorResponse e)) s CAUGHT
  | D_rejected payloadText m t :
      req_data_text w = Ok payloadText ->
      env_AGENTUITY_ENVIRONMENT w <> Some "development" ->
      gateClosed w payloadText m t ->
      Delivery w s (Ok [ ("status", JStr "error"); ("message", JStr m) ]) s
        (ELog info "Received webhook request" :: t)
  | D_unparsed payloadText g e :
      req_data_text w = Ok payloadText ->
      gateOpened w payloadText g ->
      req_data_object w = Throw e \/ (req_data_object w = Ok JNull /\ e = nullPropertyError "payload") ->
      Delivery w s (Ok (errorResponse e)) s
        (ELog info "Received webhook request" :: g ++ CAUGHT)
  | D_unclassified payloadText g body payload e :
      req_data_text w = Ok payloadText ->
      gateOpened w payloadText g ->
      req_data_object w = Ok body -> getProp body "payload" = Ok payload ->
      generateObject w (analysisPrompt payloadText) = Throw e ->
      Delivery w s (Ok (errorResponse e)) s (logToClassifier g payloadText ++ CAUGHT)
  | D_ignored payloadText g body payload analysis :
      req_data_text w = Ok payloadText ->
      gateOpened w payloadText g ->
      req_data_object w = Ok body -> getProp body "payload" = Ok payload ->
      generateObject w (analysisPrompt payloadText) = Ok analysis ->
      isReleaseOrTagEvent analysis = false \/ isSupported analysis = false ->
      Delivery w s
        (Ok [ ("status", JStr "ignored"); ("reason", JStr (reasoning analysis)) ]) s
        (logToClassifier g payloadText ++ [ELog info "Webhook analysis:"])
  | D_lookup_failed payloadText g payload analysis e :
      Classified w payloadText g payload analysis ->
      kv_get_fault w = Some e ->
      Delivery w s (Ok (errorResponse e)) s (logToLookup g payloadText analysis ++ CAUGHT)
  | D_duplicate payloadText g payload analysis :
      Classified w payloadText g payload analysis ->
      kv_get_fault w = None ->
      is_Some (s !! (KV_NAMESPACE, eventKeyOf analysis)) ->
      Delivery w s
        (Ok [ ("status", JStr "already_processed");
              ("repository", JStr (repositoryName analysis));
              ("eventType", JStr (eventTypeName (eventType analysis)));
              ("version", JStr (version analysis));
              ("message", JStr "This event has already been processed") ]) s
        (logToLookup g payloadText analysis
         ++ [ELog info "Existing event:"; ELog info "Event already processed:"])
  | D_unpublished payloadText g payload analysis :
      Classified w payloadText g payload analysis ->
      kv_get_fault w = None ->
      s !! (KV_NAMESPACE, eventKeyOf analysis) = None ->
      eventType analysis = release ->
      getPropOpt payload "action" <> Some (JStr "published") ->
      Delivery w s
        (Ok [ ("status", JStr "ignored");
              ("reason", JStr "Only published releases are processed") ]) s
        (logToLookup g payloadText analysis
         ++ [ELog info "Existing event:"; ELog info "Ignoring non-published release event:"])
  | D_unsynthesized payloadText g payload analysis e :
      Unseen w s payloadText g payload analysis ->
      generateText w (devinPromptRequest analysis payloadText) = Throw e ->
      Delivery w s (Ok (errorResponse e)) s
        (logToSynthesizer g payloadText analysis ++ CAUGHT)
  | D_undispatched payloadText g payload analysis prompt cause :
      Unseen w s payloadText g payload analysis ->
      generateText w (devinPromptRequest analysis payloadText) = Ok prompt ->
      (forall result, ~ dispatchSucceeds w prompt result) ->
      Delivery w s
        (Ok (errorResponse (Error ("Failed to call Devin API: " +:+ cause)))) s
        (logToEndpoint g payloadText analysis prompt
         ++ ELog error "Error calling Devin API: %o" :: CAUGHT)
  | D_unrecorded payloadText g payload analysis prompt result e :
      Unseen w s payloadText g payload analysis ->
      generateText w (devinPromptRequest analysis payloadText) = Ok prompt ->
      dispatchSucceeds w prompt result ->
      kv_set_fault w = Some e ->
      Delivery w s (Ok (errorResponse e)) s
        (logToRecord w g payloadText analysis prompt result ++ CAUGHT)
  | D_success payloadText g payload analysis prompt result :
      Unseen w s payloadText g payload analysis ->
      generateText w (devinPromptRequest analysis payloadText) = Ok prompt ->
      dispatchSucceeds w prompt result ->
      kv_set_fault w = None ->
      Delivery w s (Ok (successResponse analysis result))
        (<[(KV_NAMESPACE, eventKeyOf analysis) := recordOf w analysis result]> s)
        (logToRecord w g payloadText analysis prompt result).

(** The delivery fulfils every condition of a dispatch and of its record:
    it is an unseen classified event, the synthesizer gives a prompt, the
    endpoint accepts it with [result], and the store takes the record. *)
Definition Dispatched (w : World) (s : Store) (analysis : WebhookAnalysis)
    (result : DevinResult) : Prop :=
  exists payloadText g payload prompt,
    Unseen w s payloadText g payload analysis
    /\ generateText w (devinPromptRequest analysis payloadText) = Ok prompt
    /\ dispatchSucceeds w prompt result
    /\ kv_set_fault w = None.


(** The second delivery is the same delivery, and the synthesizer, the
    endpoint and the store lookup answer as before; the store write and the
    clock may differ. *)
Definition sameAnswers (w1 w2 : World) : Prop :=
  sameDelivery w1 w2
  /\ generateText w1 = generateText w2
  /\ fetch w1 = fetch w2
  /\ kv_get_fault w1 = kv_get_fault w2.

(** Deliveries one after the other, each from the store the one before
    left: the responses, the last store and the whole log. *)
Fixpoint deliverAll (ws : list World) (s : Store)
    : list (Outcome Response) * Store * list Effect :=
  match ws with
  | [] => ([], s, [])
  | w :: rest =>
      let first := ChangelogAgent w s in
      let others := deliverAll rest (storeOf first) in
      (outcomeOf first :: others.1.1, others.1.2, (effectsOf first ++ others.2)%list)
  end.

(** The field holds the separator of event keys. *)
Fixpoint hasSeparator (s : string) : bool :=
  match s with
  | EmptyString => false
  | String c rest => Ascii.eqb c ":" || hasSeparator rest
  end.

(** *** Sample deliveries that fail at one stage *)

(** A signed delivery of a published release in a production environment;
    the parameters are what the body gives as text and as an object, the
    answers of the signature function, the classifier and the synthesizer,
    and the fault of the store lookup. *)
Definition faultyWorld (text : Outcome string) (object : Outcome JValue)
    (check : Outcome bool) (classifier : Outcome WebhookAnalysis)
    (synthesizer : Outcome string) (getFault : option Exn) : World :=
  {| env_AGENTUITY_ENVIRONMENT := Some "production";
     env_GITHUB_WEBHOOK_SECRET := Some "s3cret";
     req_headers := signedHeaders;
     req_data_text := text;
     req_data_object := object;
     verify := fun _ _ _ => check;
     generateObject := fun _ => classifier;
     generateText := fun _ => synthesizer;
     fetch := fun _ => Ok (okResponse (JObj [("sessionId", JStr "devin-1")]));
     kv_get_fault := getFault;
     kv_set_fault := None;
     now := "2025-05-01T00:00:00.000Z" |}.

Definition releaseBody : JValue := JObj [("payload", JObj [("action", JStr "published")])].

Definition unreadableWorld : World :=
  faultyWorld (Throw (Error "Body is unusable")) (Ok releaseBody) (Ok true)
    (Ok (sampleAnalysis "sdk-js" "v1.4.0")) (Ok "Update the changelog") None.

Definition verifierFaultWorld : World :=
  faultyWorld (Ok "payload-bytes") (Ok releaseBody) (Throw (Error "Invalid key length"))
    (Ok (sampleAnalysis "sdk-js" "v1.4.0")) (Ok "Update the changelog") None.

Definition nullBodyWorld : World :=
  faultyWorld (Ok "null") (Ok JNull) (Ok true)
    (Ok (sampleAnalysis "sdk-js" "v1.4.0")) (Ok "Update the changelog") None.

(** The body holds the action at its top level, without a [payload]
    property. *)
Definition unwrappedBodyWorld : World :=
  faultyWorld (Ok "payload-bytes") (Ok (JObj [("action", JStr "published")])) (Ok true)
    (Ok (sampleAnalysis "sdk-js" "v1.4.0")) (Ok "Update the changelog") None.

Definition classifierFaultWorld : World :=
  faultyWorld (Ok "payload-bytes") (Ok releaseBody) (Ok true)
    (Throw (Error "rate limit exceeded")) (Ok "Update the changelog") None.

Definition synthesizerFaultWorld : World :=
  faultyWorld (Ok "payload-bytes") (Ok releaseBody) (Ok true)
    (Ok (sampleAnalysis "sdk-js" "v1.4.0")) (Throw (Error "model overloaded")) None.

Definition lookupFaultWorld : World :=
  faultyWorld (Ok "payload-bytes") (Ok releaseBody) (Ok true)
    (Ok (sampleAnalysis "sdk-js" "v1.4.0")) (Ok "Update the changelog")
    (Some (Error "kv unavailable")).

Definition tagAnalysis : WebhookAnalysis :=
  {| isReleaseOrTagEvent := true; eventType := tag;
     repositoryName := "sdk-py"; version := "v0.9.0";
     reasoning := "tag created in a supported repository";
     isSupported := true |}.

(** A tag event, whose payload has no published action. *)
Definition tagWorld : World :=
  sampleWorld (Some "production") signedHeaders tagAnalysis "created"
    (Ok (okResponse (JObj [("sessionId", JStr "devin-1")]))) None.


Definition htmlResponse : HttpResponse :=
  {| ok := true; statusCode := 200; bodyText := Ok "<html>";
     bodyJson := Throw (Error "Unexpected token < in JSON") |}.

Definition htmlEndpointWorld : World :=
  sampleWorld (Some "production") signedHeaders (sampleAnalysis "sdk-js" "v1.4.0") "published"
    (Ok htmlResponse) None.

Definition sampleResult : DevinResult := {| sessionId := JStr "devin-1"; status := 200 |}.

Definition sampleKey : string * string :=
  (KV_NAMESPACE, "changelog-event:docs:v2.0.0:release").

Definition sampleRecord : ProcessedEventRecord :=
  {| repository := "docs"; recVersion := "v2.0.0"; recEventType := "release";
     processedAt := "2025-04-01T00:00:00.000Z"; devinSessionId := JStr "devin-0" |}.

(** ** A weakest-precondition calculus for the agent monad *)

(** [wp m s Q]: running [m] from store [s] ends in an outcome, a store and
    a log that satisfy [Q]. *)
Definition wp {A : Type} (m : M A) (s : Store)
    (Q : Outcome A -> Store -> list Effect -> Prop) : Prop :=
  Q (outcomeOf (m s)) (storeOf (m s)) (effectsOf (m s)).

Section Wp.
Context {A : Type}.

Lemma wp_ret (a : A) (s : Store) Q : Q (Ok a) s [] -> wp (ret a) s Q.
Proof. exact id. Qed.

Lemma wp_throw (e : Exn) (s : Store) Q : Q (Throw e) s [] -> wp (A:=A) (throw e) s Q.
Proof. exact id. Qed.

Lemma wp_lift (o : Outcome A) (s : Store) Q : Q o s [] -> wp (lift o) s Q.
Proof. by destruct o. Qed.

Lemma wp_tryCatch (m : M A) (h : Exn -> M A) (s : Store) Q :
  wp m s (fun r s1 t1 =>
            match r with
            | Ok a => Q (Ok a) s1 t1
            | Throw e => wp (h e) s1 (fun r2 s2 t2 => Q r2 s2 (t1 ++ t2)%list)
            end) ->
  wp (tryCatch m h) s Q.
Proof.
  unfold wp, tryCatch, outcomeOf, storeOf, effectsOf.
  destruct (m s) as [[[a|e] s1] t1]; simpl; [done|].
  by destruct (h e s1) as [[r2 s2] t2].
Qed.

Lemma wp_mono (m : M A) (s : Store) (Q Q' : Outcome A -> Store -> list Effect -> Prop) :
  wp m s Q -> (forall r s' t, Q r s' t -> Q' r s' t) -> wp m s Q'.
Proof. unfold wp. eauto. Qed.

Lemma wp_elim (m : M A) (s : Store) Q :
  wp m s Q -> Q (outcomeOf (m s)) (storeOf (m s)) (effectsOf (m s)).
Proof. exact id. Qed.

End Wp.

Lemma wp_bind {A B : Type} (m : M A) (k : A -> M B) (s : Store) Q :
  wp m s (fun r s1 t1 =>
            match r with
            | Ok a => wp (k a) s1 (fun r2 s2 t2 => Q r2 s2 (t1 ++ t2)%list)
            | Throw e => Q (Throw e) s1 t1
            end) ->
  wp (bind m k) s Q.
Proof.
  unfold wp, bind, outcomeOf, storeOf, effectsOf.
  destruct (m s) as [[[a|e] s1] t1]; simpl; [|done].
  by destruct (k a s1) as [[r2 s2] t2].
Qed.

Lemma wp_emit (e : Effect) (s : Store) Q : Q (Ok tt) s [e] -> wp (emit e) s Q.
Proof. exact id. Qed.

Lemma wp_kv_get (w : World) (ns key : string) (s : Store) Q :
  match kv_get_fault w with
  | Some e => Q (Throw e) s [EKvGet ns key]
  | None => Q (Ok (bool_decide (is_Some (s !! (ns, key))))) s [EKvGet ns key]
  end ->
  wp (kv_get w ns key) s Q.
Proof. unfold kv_get, wp, bind, emit, throw. by destruct (kv_get_fault w). Qed.

Lemma wp_kv_set (w : World) (ns key : string) (v : ProcessedEventRecord) (s : Store) Q :
  match kv_set_fault w with
  | Some e => Q (Throw e) s [EKvSet ns key v]
  | None => Q (Ok tt) (<[(ns, key) := v]> s) [EKvSet ns key v]
  end ->
  wp (kv_set w ns key v) s Q.
Proof. unfold kv_set, wp, bind, emit, throw. by destruct (kv_set_fault w). Qed.

(** Case rules: the value of a scrutinee is recorded as an equation. *)
Lemma wp_lift_cases {A : Type} (o : Outcome A) (s : Store) Q :
  (forall a, o = Ok a -> Q (Ok a) s []) ->
  (forall e, o = Throw e -> Q (Throw e) s []) ->
  wp (lift o) s Q.
Proof. intros H1 H2. destruct o; [exact (H1 _ eq_refl) | exact (H2 _ eq_refl)]. Qed.

Lemma wp_if {A : Type} (b : bool) (m1 m2 : M A) (s : Store) Q :
  (b = true -> wp m1 s Q) ->
  (b = false -> wp m2 s Q) ->
  wp (if b then m1 else m2) s Q.
Proof. destruct b; eauto. Qed.

Lemma wp_match_EventType {A : Type} (k : EventType) (m1 m2 m3 : M A) (s : Store) Q :
  (k = release -> wp m1 s Q) ->
  (k = tag -> wp m2 s Q) ->
  (k = other -> wp m3 s Q) ->
  wp (match k with release => m1 | tag => m2 | other => m3 end) s Q.
Proof. destruct k; eauto. Qed.

Lemma wp_kv_get_cases (w : World) (ns key : string) (s : Store) Q :
  (forall e, kv_get_fault w = Some e -> Q (Throw e) s [EKvGet ns key]) ->
  (kv_get_fault w = None ->
   Q (Ok (bool_decide (is_Some (s !! (ns, key))))) s [EKvGet ns key]) ->
  wp (kv_get w ns key) s Q.
Proof. intros H1 H2. apply wp_kv_get. destruct (kv_get_fault w); eauto. Qed.

Lemma wp_kv_set_cases (w : World) (ns key : string) (v : ProcessedEventRecord)
    (s : Store) Q :
  (forall e, kv_set_fault w = Some e -> Q (Throw e) s [EKvSet ns key v]) ->
  (kv_set_fault w = None -> Q (Ok tt) (<[(ns, key) := v]> s) [EKvSet ns key v]) ->
  wp (kv_set w ns key v) s Q.
Proof. intros H1 H2. apply wp_kv_set. destruct (kv_set_fault w); eauto. Qed.

#[local] Opaque analysisPrompt devinPromptRequest.

(** One step of symbolic execution of the agent.  A scrutinee whose value
    is known from a hypothesis is replaced by it; any other is split, and
    each case keeps the equation that names it. *)
Ltac head_of t := lazymatch t with ?f _ => head_of f | _ => t end.

Ltac wp_known x :=
  match goal with
  | H : x = ?v |- _ => let h := head_of v in is_constructor h; rewrite H
  end.

Ltac wp_bool b :=
  let v := eval cbn [negb success] in b in
  lazymatch v with
  | true => change b with true; cbv iota
  | false => change b with false; cbv iota
  | _ =>
      first [ wp_known b; cbv iota
            | is_var b; destruct b
            | lazymatch b with negb ?y => is_var y; destruct y; cbn [negb] end
            | apply wp_if; intros ? ]
  end.

Ltac wp_step :=
  lazymatch goal with
  | |- wp (bind _ _) _ _ => apply wp_bind
  | |- wp (ret _) _ _ => apply wp_ret
  | |- wp (resp_json _) _ _ => apply wp_ret
  | |- wp (throw _) _ _ => apply wp_throw
  | |- wp (emit _) _ _ => apply wp_emit
  | |- wp (log _ _) _ _ => apply wp_emit
  | |- wp (lift ?o) _ _ =>
      first [ wp_known o; apply wp_lift | apply wp_lift_cases; intros ? ? ]
  | |- wp (tryCatch _ _) _ _ => apply wp_tryCatch
  | |- wp (kv_get ?w _ _) _ _ =>
      first [ apply wp_kv_get; wp_known (kv_get_fault w)
            | apply wp_kv_get_cases; [ intros ? ? | intros ? ] ]
  | |- wp (kv_set ?w _ _ _) _ _ =>
      first [ apply wp_kv_set; wp_known (kv_set_fault w)
            | apply wp_kv_set_cases; [ intros ? ? | intros ? ] ]
  | |- wp (callDevinAPI _ _) _ _ => unfold callDevinAPI at 1
  | |- wp (verifyGitHubWebhook _) _ _ => unfold verifyGitHubWebhook at 1
  | |- wp (dispatchStage _ _ _ _) _ _ => unfold dispatchStage at 1
  | |- wp (classifyStage _) _ _ => unfold classifyStage at 1
  | |- wp (handleWebhook _) _ _ => unfold handleWebhook at 1
  | |- wp (ChangelogAgent _) _ _ => unfold ChangelogAgent at 1
  | |- wp (if ?b then _ else _) _ _ => wp_bool b
  | |- wp (match ?k with release => _ | tag => _ | other => _ end) _ _ =>
      first [ wp_known k; cbv iota | apply wp_match_EventType; intros ? ]
  end; cbv beta iota zeta.

Ltac wp_run := repeat wp_step.

(** The end of a path: the status of the response, then facts about the log
    and the store that hold by computation. *)
Ltac wp_leaf :=
  split_and?;
  lazymatch goal with
  | |- hasStatus _ _ => eexists; split; reflexivity
  | |- _ => reflexivity
  end.

(** The execution has reached the signature verifier. *)
Ltac at_verifier :=
  lazymatch goal with |- wp (bind (verifyGitHubWebhook _) _) _ _ => idtac end.

(** ** Properties *)


Example goodWorld_runs :
  outcomeOf (ChangelogAgent goodWorld ∅)
  = Ok [ ("status", JStr "success"); ("repository", JStr "sdk-js");
         ("eventType", JStr "release"); ("version", JStr "v1.4.0");
         ("devinSessionId", JStr "devin-1") ]
  /\ is_Some (storeOf (ChangelogAgent goodWorld ∅)
               !! (KV_NAMESPACE, "changelog-event:sdk-js:v1.4.0:release")).
Proof. split; vm_compute; eauto. Qed.

(** C6. Every delivery ends with one JSON response whose [status] is
    success, ignored, already_processed or error; the agent never throws to
    its caller. *)
Theorem ChangelogAgent_structured_response (w : World) (s : Store) :
  exists resp st,
    outcomeOf (ChangelogAgent w s) = Ok resp
    /\ responseStatus resp = Some (JStr st)
    /\ In st STATUSES.
Proof.
  apply (wp_elim (ChangelogAgent w) s
           (fun r _ _ => exists resp st,
              r = Ok resp /\ responseStatus resp = Some (JStr st) /\ In st STATUSES)).
  wp_run; eexists _, _; (split; [reflexivity|]); (split; [reflexivity|]); simpl; tauto.
Qed.

(** C7. A classified event that is not a release or tag event, or whose
    repository is not supported, is answered [ignored] with the classifier's
    reasoning, and the store is never looked up. *)
Theorem ignored_before_store_lookup (w : World) (s : Store)
    (payloadText : string) (analysis : WebhookAnalysis) :
  req_data_text w = Ok payloadText ->
  generateObject w (analysisPrompt payloadText) = Ok analysis ->
  calls isClassifierCall (effectsOf (ChangelogAgent w s)) <> 0%nat ->
  isReleaseOrTagEvent analysis = false \/ isSupported analysis = false ->
  outcomeOf (ChangelogAgent w s)
    = Ok [ ("status", JStr "ignored"); ("reason", JStr (reasoning analysis)) ]
  /\ calls isStoreLookup (effectsOf (ChangelogAgent w s)) = 0%nat
  /\ storeOf (ChangelogAgent w s) = s.
Proof.
  intros Htext Hobj Hcalled Hflags. revert Hcalled.
  assert (Hgate : negb (isReleaseOrTagEvent analysis) || negb (isSupported analysis) = true)
    by (destruct Hflags as [-> | ->]; [done | by rewrite orb_true_r]).
  apply (wp_elim (ChangelogAgent w) s
           (fun r s' t => calls isClassifierCall t <> 0%nat ->
              r = Ok [ ("status", JStr "ignored"); ("reason", JStr (reasoning analysis)) ]
              /\ calls isStoreLookup t = 0%nat /\ s' = s)).
  wp_run.
  all: first [ by intros _ | intros Hc; exfalso; apply Hc; reflexivity ].
Qed.

Lemma ignored_before_store_lookup_witness :
  outcomeOf (ChangelogAgent unsupportedWorld ∅)
    = Ok [ ("status", JStr "ignored");
           ("reason", JStr "website is not a supported repository") ]
  /\ calls isStoreLookup (effectsOf (ChangelogAgent unsupportedWorld ∅)) = 0%nat
  /\ storeOf (ChangelogAgent unsupportedWorld ∅) = ∅.
Proof.
  apply (ignored_before_store_lookup unsupportedWorld ∅ "payload-bytes" unsupportedAnalysis).
  - reflexivity.
  - reflexivity.
  - vm_compute. discriminate.
  - right. reflexivity.
Defined.

(** *** The signature gate *)

(** The verifier turns an unauthenticated request down, without a throw and
    without touching the classifier or the store. *)
Lemma verifyGitHubWebhook_rejects (w : World) (s : Store) :
  unauthenticated w ->
  wp (verifyGitHubWebhook w) s
     (fun r s' t =>
        s' = s /\ calls isClassifierCall t = 0%nat
        /\ exists msg, r = Ok {| success := false; vmessage := Some msg |}
                       /\ truthyStr (Some msg) = true).
Proof.
  intros Hun. wp_run.
  all: try (split; [reflexivity | split; [reflexivity | eexists; split; reflexivity]]).
  exfalso.
  destruct (signatureHeader w) as [sig|] eqn:Hsig; [|by simpl in *].
  destruct (env_GITHUB_WEBHOOK_SECRET w) as [secret|] eqn:Hsec; [|by simpl in *].
  destruct Hun as [Hun | Hun]; [congruence|].
  by eapply Hun.
Qed.

(** C3, as stated, fails: with [AGENTUITY_ENVIRONMENT] set to development
    the signature gate is skipped, and a request without a signature header
    is classified and dispatched. *)
Lemma development_mode_skips_signature_gate :
  ~ (forall (w : World) (s : Store),
       unauthenticated w ->
       answered "error" (ChangelogAgent w s)
       /\ calls isClassifierCall (effectsOf (ChangelogAgent w s)) = 0%nat).
Proof.
  intros H.
  destruct (H unsignedDevelopmentWorld ∅) as [_ Hcalls].
  - left. reflexivity.
  - vm_compute in Hcalls. discriminate.
Qed.

(** C3, amended. Outside development mode, a request whose signature header
    is absent or whose signature does not verify is answered [error] and the
    classifier is never called. *)
Theorem unauthenticated_never_classified (w : World) (s : Store) :
  env_AGENTUITY_ENVIRONMENT w <> Some "development" ->
  unauthenticated w ->
  answered "error" (ChangelogAgent w s)
  /\ calls isClassifierCall (effectsOf (ChangelogAgent w s)) = 0%nat
  /\ storeOf (ChangelogAgent w s) = s.
Proof.
  intros Henv Hun.
  assert (Hdev : bool_decide (env_AGENTUITY_ENVIRONMENT w = Some "development") = false)
    by (by apply bool_decide_eq_false_2).
  apply (wp_elim (ChangelogAgent w) s
           (fun r s' t => hasStatus "error" r /\ calls isClassifierCall t = 0%nat /\ s' = s)).
  repeat (tryif at_verifier then fail else wp_step).
  - apply wp_bind.
    eapply wp_mono; [by apply verifyGitHubWebhook_rejects|].
    intros r s' t (-> & Ht & msg & -> & Hmsg). cbv beta iota zeta.
    wp_run. split_and!; [wp_leaf | | reflexivity].
    unfold calls in *. rewrite !List.filter_app, !length_app, Ht. reflexivity.
  - wp_leaf.
Qed.

Lemma unauthenticated_never_classified_witness :
  answered "error" (ChangelogAgent unsignedWorld ∅)
  /\ calls isClassifierCall (effectsOf (ChangelogAgent unsignedWorld ∅)) = 0%nat
  /\ storeOf (ChangelogAgent unsignedWorld ∅) = ∅.
Proof.
  apply (unauthenticated_never_classified unsignedWorld ∅).
  - discriminate.
  - left. reflexivity.
Defined.

(** *** The published-release check *)

Lemma notStrictEqStr_true (v : option JValue) (lit : string) :
  v <> Some (JStr lit) -> notStrictEqStr v lit = true.
Proof.
  destruct v as [[]|]; simpl; try done.
  intros Hne. apply negb_true_iff, String.eqb_neq. congruence.
Qed.

Lemma not_recorded (s : Store) (k : string * string) :
  s !! k = None -> bool_decide (is_Some (s !! k)) = false.
Proof. intros ->. apply bool_decide_eq_false_2. by intros [? ?]. Qed.

Lemma already_recorded (s : Store) (k : string * string) :
  is_Some (s !! k) -> bool_decide (is_Some (s !! k)) = true.
Proof. apply bool_decide_eq_true_2. Qed.

(** C8. A classified release event whose payload action is not published
    and whose key is not recorded is answered [ignored], and the dispatcher
    is never called. *)
Theorem unpublished_release_ignored (w : World) (s : Store)
    (payloadText : string) (body : JValue) (payload : option JValue)
    (analysis : WebhookAnalysis) :
  req_data_text w = Ok payloadText ->
  req_data_object w = Ok body ->
  getProp body "payload" = Ok payload ->
  generateObject w (analysisPrompt payloadText) = Ok analysis ->
  calls isClassifierCall (effectsOf (ChangelogAgent w s)) <> 0%nat ->
  eventType analysis = release ->
  getPropOpt payload "action" <> Some (JStr "published") ->
  kv_get_fault w = None ->
  s !! (KV_NAMESPACE, eventKeyOf analysis) = None ->
  answered "ignored" (ChangelogAgent w s)
  /\ calls isDispatcherCall (effectsOf (ChangelogAgent w s)) = 0%nat
  /\ storeOf (ChangelogAgent w s) = s.
Proof.
  intros Htext Hbody Hpayload Hobj Hcalled Hkind Haction Hget Hnew. revert Hcalled.
  apply notStrictEqStr_true in Haction.
  apply not_recorded in Hnew.
  apply (wp_elim (ChangelogAgent w) s
           (fun r s' t => calls isClassifierCall t <> 0%nat ->
              hasStatus "ignored" r /\ calls isDispatcherCall t = 0%nat /\ s' = s)).
  wp_run.
  all: first [ intros _; wp_leaf | intros Hc; exfalso; apply Hc; reflexivity ].
Qed.

Lemma unpublished_release_ignored_witness :
  answered "ignored" (ChangelogAgent draftReleaseWorld ∅)
  /\ calls isDispatcherCall (effectsOf (ChangelogAgent draftReleaseWorld ∅)) = 0%nat
  /\ storeOf (ChangelogAgent draftReleaseWorld ∅) = ∅.
Proof.
  apply (unpublished_release_ignored draftReleaseWorld ∅ "payload-bytes"
           (JObj [("payload", JObj [("action", JStr "created")])])
           (Some (JObj [("action", JStr "created")]))
           (sampleAnalysis "sdk-js" "v1.4.0")).
  - reflexivity.
  - reflexivity.
  - reflexivity.
  - reflexivity.
  - vm_compute. discriminate.
  - reflexivity.
  - simpl. discriminate.
  - reflexivity.
  - reflexivity.
Defined.

(** *** The idempotency gate *)

Lemma accepted_sameDelivery (w1 w2 : World) (analysis : WebhookAnalysis) :
  sameDelivery w1 w2 -> accepted w1 analysis -> accepted w2 analysis.
Proof.
  intros (E1 & E2 & E3 & E4 & E5 & E6 & E7).
  unfold accepted, signatureHeader. by rewrite E1, E2, E3, E4, E5, E6, E7.
Qed.

Lemma recorded_after_insert (s : Store) (k : string * string) (v : ProcessedEventRecord) :
  is_Some (<[k := v]> s !! k).
Proof. rewrite lookup_insert_eq. by eexists. Qed.

(** A delivery answered [success] was accepted, called the dispatcher once
    and recorded its event key. *)
Lemma success_inversion (w : World) (s : Store) :
  answered "success" (ChangelogAgent w s) ->
  exists analysis,
    accepted w analysis
    /\ is_Some (storeOf (ChangelogAgent w s) !! (KV_NAMESPACE, eventKeyOf analysis))
    /\ calls isDispatcherCall (effectsOf (ChangelogAgent w s)) = 1%nat.
Proof.
  unfold answered.
  apply (wp_elim (ChangelogAgent w) s
           (fun r s' t => hasStatus "success" r ->
              exists analysis,
                accepted w analysis
                /\ is_Some (s' !! (KV_NAMESPACE, eventKeyOf analysis))
                /\ calls isDispatcherCall t = 1%nat)).
  wp_run.
  all: intros (resp & [= <-] & Hstatus); try discriminate Hstatus; clear Hstatus.
  all: eexists; split_and!; [ | apply recorded_after_insert | reflexivity ].
  all: do 3 eexists; split_and!; try eassumption.
  all: first [ by left | right; by split_and! ].
Qed.

(** An accepted delivery whose key is recorded stops at the lookup. *)
Lemma accepted_duplicate (w : World) (s : Store) (analysis : WebhookAnalysis) :
  accepted w analysis ->
  kv_get_fault w = None ->
  is_Some (s !! (KV_NAMESPACE, eventKeyOf analysis)) ->
  answered "already_processed" (ChangelogAgent w s)
  /\ calls isDispatcherCall (effectsOf (ChangelogAgent w s)) = 0%nat
  /\ calls isStoreWrite (effectsOf (ChangelogAgent w s)) = 0%nat
  /\ storeOf (ChangelogAgent w s) = s.
Proof.
  intros (payloadText & body & payload & Htext & Hbody & Hpayload & Hobj & Hflags & Hgate)
         Hget Hold.
  apply already_recorded in Hold.
  apply (wp_elim (ChangelogAgent w) s
           (fun r s' t => hasStatus "already_processed" r
              /\ calls isDispatcherCall t = 0%nat
              /\ calls isStoreWrite t = 0%nat /\ s' = s)).
  destruct Hgate as [Hdev | (Hdev & Hsig & Hsecret & Hverify)]; wp_run; wp_leaf.
Qed.

(** C2. When the store lookup finds the event key, the delivery is answered
    [already_processed] without a dispatcher call and without a store write;
    so a delivery answered [success] followed by a second delivery of the
    same event gives [already_processed], with one dispatcher call in all. *)
Theorem duplicate_delivery_short_circuits :
  (forall (w : World) (s : Store) (payloadText : string) (analysis : WebhookAnalysis),
     req_data_text w = Ok payloadText ->
     generateObject w (analysisPrompt payloadText) = Ok analysis ->
     calls isStoreLookup (effectsOf (ChangelogAgent w s)) <> 0%nat ->
     kv_get_fault w = None ->
     is_Some (s !! (KV_NAMESPACE, eventKeyOf analysis)) ->
     answered "already_processed" (ChangelogAgent w s)
     /\ calls isDispatcherCall (effectsOf (ChangelogAgent w s)) = 0%nat
     /\ calls isStoreWrite (effectsOf (ChangelogAgent w s)) = 0%nat
     /\ storeOf (ChangelogAgent w s) = s)
  /\ (forall (w1 w2 : World) (s : Store),
        sameDelivery w1 w2 ->
        kv_get_fault w2 = None ->
        answered "success" (ChangelogAgent w1 s) ->
        let first := ChangelogAgent w1 s in
        let second := ChangelogAgent w2 (storeOf first) in
        answered "already_processed" second
        /\ calls isDispatcherCall (effectsOf first ++ effectsOf second) = 1%nat
        /\ calls isStoreWrite (effectsOf second) = 0%nat
        /\ storeOf second = storeOf first).
Proof.
  split.
  - intros w s payloadText analysis Htext Hobj Hlooked Hget Hold. revert Hlooked.
    apply already_recorded in Hold.
    apply (wp_elim (ChangelogAgent w) s
             (fun r s' t => calls isStoreLookup t <> 0%nat ->
                hasStatus "already_processed" r /\ calls isDispatcherCall t = 0%nat
                /\ calls isStoreWrite t = 0%nat /\ s' = s)).
    wp_run.
    all: first [ intros _; wp_leaf | intros Hc; exfalso; apply Hc; reflexivity ].
  - intros w1 w2 s Hsame Hget Hfirst. simpl.
    destruct (success_inversion w1 s Hfirst) as (analysis & Hacc & Hrec & Honce).
    destruct (accepted_duplicate w2 (storeOf (ChangelogAgent w1 s)) analysis)
      as (Hdup & Hnone & Hnowrite & Hstore); [by eapply accepted_sameDelivery | done | done |].
    split_and!; [done | | done | done].
    unfold calls in *. rewrite List.filter_app, length_app, Honce, Hnone. reflexivity.
Qed.

Lemma duplicate_delivery_short_circuits_witness :
  let first := ChangelogAgent goodWorld ∅ in
  let second := ChangelogAgent goodWorld (storeOf first) in
  answered "success" first
  /\ answered "already_processed" second
  /\ calls isDispatcherCall (effectsOf first ++ effectsOf second) = 1%nat
  /\ calls isStoreWrite (effectsOf second) = 0%nat
  /\ storeOf second = storeOf first.
Proof.
  assert (Hfirst : answered "success" (ChangelogAgent goodWorld ∅))
    by (eexists; split; reflexivity).
  split; [exact Hfirst|].
  destruct duplicate_delivery_short_circuits as [Hlookup Htwice].
  destruct (Hlookup goodWorld (storeOf (ChangelogAgent goodWorld ∅)) "payload-bytes"
              (sampleAnalysis "sdk-js" "v1.4.0")) as (Hsecond & _ & Hnowrite & Hstore).
  - reflexivity.
  - reflexivity.
  - vm_compute. discriminate.
  - reflexivity.
  - vm_compute. eexists. reflexivity.
  - destruct (Htwice goodWorld goodWorld ∅) as (_ & Hone & _ & _).
    + repeat split.
    + reflexivity.
    + exact Hfirst.
    + exact (conj Hsecond (conj Hone (conj Hnowrite Hstore))).
Defined.

(** *** The dispatcher and the ledger write *)

(** C4. When the dispatch endpoint answers with a non-success response, the
    delivery is answered [error], no record is written and the store is left
    as it was; the error thrown by the dispatcher, and the message of the
    response, carry the status code and the body of the endpoint's answer. *)
Theorem failed_dispatch_writes_no_record (w : World) (s : Store)
    (prompt : string) (response : HttpResponse) :
  In prompt (posted (effectsOf (ChangelogAgent w s))) ->
  fetch w prompt = Ok response ->
  ok response = false ->
  answered "error" (ChangelogAgent w s)
  /\ calls isStoreWrite (effectsOf (ChangelogAgent w s)) = 0%nat
  /\ storeOf (ChangelogAgent w s) = s
  /\ forall body, bodyText response = Ok body ->
       let report := "Failed to call Devin API: Devin API returned "
                       +:+ pretty (statusCode response) +:+ ": " +:+ body in
       outcomeOf (callDevinAPI w prompt s) = Throw (Error report)
       /\ outcomeOf (ChangelogAgent w s)
          = Ok [ ("status", JStr "error"); ("message", JStr report) ].
Proof.
  intros Hposted Hfetch Hok. revert Hposted.
  apply (wp_elim (ChangelogAgent w) s
           (fun r s' t => In prompt (posted t) ->
              hasStatus "error" r /\ calls isStoreWrite t = 0%nat /\ s' = s
              /\ forall body, bodyText response = Ok body ->
                   let report := "Failed to call Devin API: Devin API returned "
                                   +:+ pretty (statusCode response) +:+ ": " +:+ body in
                   outcomeOf (callDevinAPI w prompt s) = Throw (Error report)
                   /\ r = Ok [ ("status", JStr "error"); ("message", JStr report) ])).
  wp_run.
  all: intros Hposted; simpl in Hposted;
       first [ contradiction | destruct Hposted as [-> | []] ].
  all: rewrite Hfetch in *; simplify_eq.
  all: try (rewrite Hok in *; discriminate).
  all: split_and!; [wp_leaf | reflexivity | reflexivity |].
  all: intros body Hbody.
  all: rewrite Hbody in *; simplify_eq.
  all: split; [|reflexivity].
  all: apply (wp_elim (callDevinAPI w prompt) s (fun r _ _ => r = Throw _)).
  all: wp_run; reflexivity.
Qed.

Lemma failed_dispatch_writes_no_record_witness :
  answered "error" (ChangelogAgent failedDispatchWorld ∅)
  /\ calls isStoreWrite (effectsOf (ChangelogAgent failedDispatchWorld ∅)) = 0%nat
  /\ storeOf (ChangelogAgent failedDispatchWorld ∅) = ∅
  /\ outcomeOf (ChangelogAgent failedDispatchWorld ∅)
     = Ok [ ("status", JStr "error");
            ("message",
             JStr "Failed to call Devin API: Devin API returned 500: upstream failure") ].
Proof.
  destruct (failed_dispatch_writes_no_record failedDispatchWorld ∅
              "Update the changelog" serverError)
    as (Herror & Hnowrite & Hstore & Hreport).
  - vm_compute. left. reflexivity.
  - reflexivity.
  - reflexivity.
  - split_and!; [exact Herror | exact Hnowrite | exact Hstore |].
    exact (proj2 (Hreport "upstream failure" eq_refl)).
Defined.

(** C1, as stated, fails: the ledger write is inside the [try] block, so a
    failing write after a successful dispatch is answered [error]. *)
Lemma store_write_failure_is_not_success :
  ~ (forall (w : World) (s : Store) (e : Exn),
       calls isDispatcherCall (effectsOf (ChangelogAgent w s)) = 1%nat ->
       calls isStoreWrite (effectsOf (ChangelogAgent w s)) <> 0%nat ->
       kv_set_fault w = Some e ->
       answered "success" (ChangelogAgent w s)).
Proof.
  intros H.
  destruct (H storeFaultWorld ∅ (Error "kv unavailable")) as (resp & Hresp & Hstatus).
  - reflexivity.
  - vm_compute. discriminate.
  - reflexivity.
  - vm_compute in Hresp. injection Hresp as <-. discriminate Hstatus.
Qed.

(** C1, amended. When the dispatcher call succeeds and the ledger write that
    follows it fails, the failure is caught at the top level and logged, and
    the delivery is answered [error] with the message of the store's error;
    the dispatcher has been called once and the store is left as it was. *)
Theorem store_write_failure_is_reported (w : World) (s : Store) (e : Exn) :
  calls isStoreWrite (effectsOf (ChangelogAgent w s)) <> 0%nat ->
  kv_set_fault w = Some e ->
  outcomeOf (ChangelogAgent w s)
    = Ok [ ("status", JStr "error"); ("message", JStr (message e)) ]
  /\ calls isDispatcherCall (effectsOf (ChangelogAgent w s)) = 1%nat
  /\ calls isErrorLog (effectsOf (ChangelogAgent w s)) = 1%nat
  /\ storeOf (ChangelogAgent w s) = s.
Proof.
  intros Hwrite Hfault. revert Hwrite.
  apply (wp_elim (ChangelogAgent w) s
           (fun r s' t => calls isStoreWrite t <> 0%nat ->
              r = Ok [ ("status", JStr "error"); ("message", JStr (message e)) ]
              /\ calls isDispatcherCall t = 1%nat
              /\ calls isErrorLog t = 1%nat /\ s' = s)).
  wp_run.
  all: first [ intros _; wp_leaf | intros Hc; exfalso; apply Hc; reflexivity ].
Qed.

Lemma store_write_failure_is_reported_witness :
  outcomeOf (ChangelogAgent storeFaultWorld ∅)
    = Ok [ ("status", JStr "error"); ("message", JStr "kv unavailable") ]
  /\ calls isDispatcherCall (effectsOf (ChangelogAgent storeFaultWorld ∅)) = 1%nat
  /\ calls isErrorLog (effectsOf (ChangelogAgent storeFaultWorld ∅)) = 1%nat
  /\ storeOf (ChangelogAgent storeFaultWorld ∅) = ∅.
Proof.
  apply (store_write_failure_is_reported storeFaultWorld ∅ (Error "kv unavailable")).
  - vm_compute. discriminate.
  - reflexivity.
Defined.

(** C9, as stated, fails: the dispatcher returns the handle [unknown], but
    the delivery is answered [success] only if the ledger write that follows
    the dispatch succeeds; when that write throws, the answer is [error]. *)
Lemma missing_session_handle_is_not_always_success :
  ~ (forall (w : World) (s : Store) (prompt : string) (response : HttpResponse)
            (data : JValue),
       fetch w prompt = Ok response ->
       ok response = true ->
       bodyJson response = Ok data ->
       getProp data "sessionId" = Ok None ->
       outcomeOf (callDevinAPI w prompt s)
         = Ok {| sessionId := JStr "unknown"; status := statusCode response |}
       /\ (In prompt (posted (effectsOf (ChangelogAgent w s))) ->
           exists resp,
             outcomeOf (ChangelogAgent w s) = Ok resp
             /\ responseStatus resp = Some (JStr "success")
             /\ assoc "devinSessionId" resp = Some (JStr "unknown"))).
Proof.
  intros H.
  destruct (H handlelessStoreFault ∅ "Update the changelog"
              (okResponse (JObj [("state", JStr "queued")]))
              (JObj [("state", JStr "queued")]))
    as (_ & Hagent); try reflexivity.
  destruct Hagent as (resp & Hresp & Hstatus & _).
  - vm_compute. left. reflexivity.
  - vm_compute in Hresp. injection Hresp as <-. discriminate Hstatus.
Qed.

(** C9, amended. When the endpoint answers with a success response whose
    JSON body has no [sessionId], the dispatcher returns the handle
    [unknown] with the status code of the response.  When the ledger write
    that follows succeeds, the delivery is answered [success] and carries
    that handle, as does the record; when that write throws, the delivery is
    answered [error] with the message of the store's error and the store is
    left as it was. *)
Theorem missing_session_handle_is_unknown (w : World) (s : Store)
    (prompt : string) (response : HttpResponse) (data : JValue) :
  fetch w prompt = Ok response ->
  ok response = true ->
  bodyJson response = Ok data ->
  getProp data "sessionId" = Ok None ->
  outcomeOf (callDevinAPI w prompt s)
    = Ok {| sessionId := JStr "unknown"; status := statusCode response |}
  /\ (In prompt (posted (effectsOf (ChangelogAgent w s))) ->
      kv_set_fault w = None ->
      exists resp,
        outcomeOf (ChangelogAgent w s) = Ok resp
        /\ responseStatus resp = Some (JStr "success")
        /\ assoc "devinSessionId" resp = Some (JStr "unknown")
        /\ exists key record,
             storeOf (ChangelogAgent w s) = <[(KV_NAMESPACE, key) := record]> s
             /\ devinSessionId record = JStr "unknown")
  /\ (In prompt (posted (effectsOf (ChangelogAgent w s))) ->
      forall e, kv_set_fault w = Some e ->
        outcomeOf (ChangelogAgent w s)
          = Ok [ ("status", JStr "error"); ("message", JStr (message e)) ]
        /\ storeOf (ChangelogAgent w s) = s).
Proof.
  intros Hfetch Hok Hjson Hsid.
  assert (Hnok : negb (ok response) = false) by (by rewrite Hok).
  split_and!.
  - apply (wp_elim (callDevinAPI w prompt) s
             (fun r _ _ => r = Ok {| sessionId := JStr "unknown";
                                     status := statusCode response |})).
    wp_run. reflexivity.
  - intros Hposted Hset. revert Hposted.
    apply (wp_elim (ChangelogAgent w) s
             (fun r s' t => In prompt (posted t) ->
                exists resp,
                  r = Ok resp
                  /\ responseStatus resp = Some (JStr "success")
                  /\ assoc "devinSessionId" resp = Some (JStr "unknown")
                  /\ exists key record,
                       s' = <[(KV_NAMESPACE, key) := record]> s
                       /\ devinSessionId record = JStr "unknown")).
    wp_run.
    all: intros Hposted; simpl in Hposted;
         first [ contradiction | destruct Hposted as [-> | []] ].
    all: rewrite Hfetch in *; simplify_eq.
    all: try (rewrite Hnok in *; discriminate).
    all: rewrite Hjson in *; simplify_eq.
    all: rewrite Hsid in *; simplify_eq.
    all: eexists; split_and!; try reflexivity.
    all: eexists _, _; split; reflexivity.
  - intros Hposted e Hset. revert Hposted.
    apply (wp_elim (ChangelogAgent w) s
             (fun r s' t => In prompt (posted t) ->
                r = Ok [ ("status", JStr "error"); ("message", JStr (message e)) ]
                /\ s' = s)).
    wp_run.
    all: intros Hposted; simpl in Hposted;
         first [ contradiction | destruct Hposted as [-> | []] ].
    all: rewrite Hfetch in *; simplify_eq.
    all: try (rewrite Hnok in *; discriminate).
    all: rewrite Hjson in *; simplify_eq.
    all: rewrite Hsid in *; simplify_eq.
    all: by split.
Qed.

Lemma missing_session_handle_is_unknown_witness :
  outcomeOf (callDevinAPI handlelessWorld "Update the changelog" ∅)
    = Ok {| sessionId := JStr "unknown"; status := 200 |}
  /\ exists resp,
       outcomeOf (ChangelogAgent handlelessWorld ∅) = Ok resp
       /\ responseStatus resp = Some (JStr "success")
       /\ assoc "devinSessionId" resp = Some (JStr "unknown").
Proof.
  destruct (missing_session_handle_is_unknown handlelessWorld ∅ "Update the changelog"
              (okResponse (JObj [("state", JStr "queued")]))
              (JObj [("state", JStr "queued")]))
    as (Hcall & Hagent & _); try reflexivity.
  split; [exact Hcall|].
  destruct Hagent as (resp & Hresp & Hstatus & Hid & _).
  - vm_compute. left. reflexivity.
  - reflexivity.
  - exists resp. by split_and!.
Defined.

(** *** The event key *)

(** C5. The event key depends on the repository name, the version and the
    event type only: analyses that agree on these three fields have the same
    key, whatever their other fields, and the key reads
    changelog-event:<repositoryName>:<version>:<eventType>. *)
Theorem generateEventKey_depends_on_triple (a b : WebhookAnalysis) :
  repositoryName a = repositoryName b ->
  version a = version b ->
  eventType a = eventType b ->
  eventKeyOf a = eventKeyOf b
  /\ eventKeyOf a
     = String.concat ":" [ "changelog-event"; repositoryName a; version a;
                           eventTypeName (eventType a) ]
  /\ generateEventKey "sdk-js" "v1.4.0" "release" = "changelog-event:sdk-js:v1.4.0:release".
Proof.
  intros Hrepo Hversion Hkind. unfold eventKeyOf.
  rewrite Hrepo, Hversion, Hkind. split_and!; reflexivity.
Qed.

Lemma generateEventKey_depends_on_triple_witness :
  eventKeyOf (sampleAnalysis "website" "v3.0.0") = eventKeyOf unsupportedAnalysis
  /\ eventKeyOf (sampleAnalysis "website" "v3.0.0")
     = String.concat ":" [ "changelog-event"; "website"; "v3.0.0"; "release" ]
  /\ generateEventKey "sdk-js" "v1.4.0" "release" = "changelog-event:sdk-js:v1.4.0:release".
Proof.
  apply (generateEventKey_depends_on_triple (sampleAnalysis "website" "v3.0.0")
           unsupportedAnalysis); reflexivity.
Defined.

(** C10. The event key is not injective: two different triples whose fields
    hold the separator give the same key, so the delivery of the second
    event after the first is answered [already_processed]. *)
Theorem generateEventKey_not_injective :
  ("a:b", "c", "release") <> ("a", "b:c", "release")
  /\ generateEventKey "a:b" "c" "release" = generateEventKey "a" "b:c" "release"
  /\ (let first := ChangelogAgent (collidingWorld "a:b" "c") ∅ in
      let second := ChangelogAgent (collidingWorld "a" "b:c") (storeOf first) in
      answered "success" first
      /\ answered "already_processed" second
      /\ calls isDispatcherCall (effectsOf second) = 0%nat).
Proof.
  split_and!; [discriminate | reflexivity | ].
  simpl. split_and!; [ eexists; split; reflexivity | eexists; split; reflexivity
                     | vm_compute; reflexivity ].
Qed.

(** ** Further properties *)

Lemma truthyStr_Some (o : option string) :
  negb (truthyStr o) = false -> exists v, o = Some v /\ v <> "".
Proof.
  destruct o as [v|]; simpl; [|done].
  intros H. exists v. split; [done|]. intros ->. done.
Qed.

Lemma truthyStr_true (v : string) : v <> "" -> negb (truthyStr (Some v)) = false.
Proof. intros Hv. simpl. rewrite negb_involutive. by apply String.eqb_neq. Qed.

(** *** The verifier on its own *)

(** X1. The verifier never throws and never touches the store: it returns a
    verdict; a positive verdict has no message and a negative one has one
    of four fixed messages. *)
Theorem verifyGitHubWebhook_returns_verdict (w : World) (s : Store) :
  exists verdict,
    outcomeOf (verifyGitHubWebhook w s) = Ok verdict
    /\ storeOf (verifyGitHubWebhook w s) = s
    /\ (if success verdict then vmessage verdict = None
        else exists m, vmessage verdict = Some m /\ In m VERIFICATION_MESSAGES).
Proof.
  pose (Q := fun (r : Outcome VerificationResult) (s' : Store) (t : list Effect) =>
          exists verdict, r = Ok verdict /\ s' = s
            /\ (if success verdict then vmessage verdict = None
                else exists m, vmessage verdict = Some m /\ In m VERIFICATION_MESSAGES)).
  apply (wp_elim (verifyGitHubWebhook w) s Q).
  wp_run; subst Q; cbv beta.
  all: eexists; split_and!; try reflexivity.
  all: simpl; eexists; split; [reflexivity | simpl; tauto].
Qed.

(** X2. The verdict is positive exactly when the signature function accepts
    the request body with the configured secret and the signature header. *)
Theorem verifyGitHubWebhook_success_iff (w : World) (s : Store) :
  (exists verdict, outcomeOf (verifyGitHubWebhook w s) = Ok verdict /\ success verdict = true)
  <-> signatureValid w.
Proof.
  split.
  - pose (Q := fun (r : Outcome VerificationResult) (s' : Store) (t : list Effect) =>
            (exists verdict, r = Ok verdict /\ success verdict = true) -> signatureValid w).
    apply (wp_elim (verifyGitHubWebhook w) s Q).
    wp_run; subst Q; cbv beta.
    all: intros (v & [= <-] & Hv); try discriminate Hv.
    repeat match goal with
           | H : negb (truthyStr _) = false |- _ =>
               apply truthyStr_Some in H; destruct H as (? & H & ?); rewrite H in *
           end.
    by eexists _, _, _.
  - intros (secret & payload & signature & Hsecret & Hs & Hsig & Hg & Htext & Hvalid).
    assert (negb (truthyStr (signatureHeader w)) = false)
      by (rewrite Hsig; by apply truthyStr_true).
    assert (negb (truthyStr (env_GITHUB_WEBHOOK_SECRET w)) = false)
      by (rewrite Hsecret; by apply truthyStr_true).
    assert (verify w (default "" (env_GITHUB_WEBHOOK_SECRET w)) payload
              (default "" (signatureHeader w)) = Ok true)
      by (by rewrite Hsecret, Hsig).
    apply (wp_elim (verifyGitHubWebhook w) s
             (fun r _ _ => exists verdict, r = Ok verdict /\ success verdict = true)).
    wp_run. by eexists.
Qed.

(** X3. The signature function is called at most once, and only when the
    header and the secret are both present and not empty and the body can
    be read; it is then called with that secret, body and signature. *)
Theorem verifyGitHubWebhook_calls_verify (w : World) (s : Store) :
  verified (effectsOf (verifyGitHubWebhook w s))
  = match signatureHeader w, env_GITHUB_WEBHOOK_SECRET w, req_data_text w with
    | Some signature, Some secret, Ok payload =>
        if String.eqb signature "" || String.eqb secret "" then []
        else [(secret, payload, signature)]
    | _, _, _ => []
    end.
Proof.
  pose (Q := fun (r : Outcome VerificationResult) (s' : Store) (t : list Effect) =>
          verified t
          = match signatureHeader w, env_GITHUB_WEBHOOK_SECRET w, req_data_text w with
            | Some signature, Some secret, Ok payload =>
                if String.eqb signature "" || String.eqb secret "" then []
                else [(secret, payload, signature)]
            | _, _, _ => []
            end).
  apply (wp_elim (verifyGitHubWebhook w) s Q).
  wp_run; subst Q; cbv beta.
  all: destruct (signatureHeader w) as [signature|];
       destruct (env_GITHUB_WEBHOOK_SECRET w) as [secret|];
       simpl in *; simplify_eq; try done.
  all: repeat match goal with
         | H : negb (negb _) = _ |- _ => rewrite negb_involutive in H; rewrite H
         | H : negb _ = false |- _ => apply negb_false_iff in H
         | H : req_data_text _ = _ |- _ => rewrite H
         end; simpl; try done.
  all: by destruct (req_data_text w).
Qed.

(** X4. A missing or empty signature header is reported before anything
    else is looked at: whatever the secret and the body, the verdict is
    negative with the missing-header message, and the signature function is
    not called. *)
Theorem missing_header_reported_first (w : World) (s : Store) :
  signatureHeader w = None \/ signatureHeader w = Some "" ->
  verifyGitHubWebhook w s
  = (Ok {| success := false; vmessage := Some "Missing X-Hub-Signature-256 header" |},
     s,
     [ELog error "No X-Hub-Signature-256 header found in the request"]).
Proof.
  intros Hsig. unfold verifyGitHubWebhook.
  assert (negb (truthyStr (signatureHeader w)) = true) as -> by (by destruct Hsig as [-> | ->]).
  reflexivity.
Qed.

Lemma missing_header_reported_first_witness :
  verifyGitHubWebhook unsignedWorld ∅
  = (Ok {| success := false; vmessage := Some "Missing X-Hub-Signature-256 header" |},
     ∅,
     [ELog error "No X-Hub-Signature-256 header found in the request"]).
Proof. apply (missing_header_reported_first unsignedWorld ∅). left. reflexivity. Defined.

(** X5. An exception of the body read or of the signature function does not
    leave the verifier: it is logged and becomes a negative verdict. *)
Theorem verification_exception_is_a_verdict (w : World) (s : Store)
    (secret signature : string) (e : Exn) :
  env_GITHUB_WEBHOOK_SECRET w = Some secret -> secret <> "" ->
  signatureHeader w = Some signature -> signature <> "" ->
  req_data_text w = Throw e
  \/ (exists payload,
        req_data_text w = Ok payload /\ verify w secret payload signature = Throw e) ->
  outcomeOf (verifyGitHubWebhook w s)
  = Ok {| success := false; vmessage := Some "Error verifying webhook signature" |}
  /\ calls isErrorLog (effectsOf (verifyGitHubWebhook w s)) = 1%nat
  /\ storeOf (verifyGitHubWebhook w s) = s.
Proof.
  intros Hsecret Hs Hsig Hg Hthrow.
  assert (negb (truthyStr (signatureHeader w)) = false)
    by (rewrite Hsig; by apply truthyStr_true).
  assert (negb (truthyStr (env_GITHUB_WEBHOOK_SECRET w)) = false)
    by (rewrite Hsecret; by apply truthyStr_true).
  apply (wp_elim (verifyGitHubWebhook w) s
           (fun r s' t => r = Ok {| success := false;
                                    vmessage := Some "Error verifying webhook signature" |}
                          /\ calls isErrorLog t = 1%nat /\ s' = s)).
  destruct Hthrow as [Htext | (payload & Htext & Hverify)].
  - wp_run. by split_and!.
  - assert (verify w (default "" (env_GITHUB_WEBHOOK_SECRET w)) payload
              (default "" (signatureHeader w)) = Throw e) by (by rewrite Hsecret, Hsig).
    wp_run. by split_and!.
Qed.

Lemma verification_exception_is_a_verdict_witness :
  outcomeOf (verifyGitHubWebhook verifierFaultWorld ∅)
  = Ok {| success := false; vmessage := Some "Error verifying webhook signature" |}
  /\ calls isErrorLog (effectsOf (verifyGitHubWebhook verifierFaultWorld ∅)) = 1%nat
  /\ storeOf (verifyGitHubWebhook verifierFaultWorld ∅) = ∅.
Proof.
  apply (verification_exception_is_a_verdict verifierFaultWorld ∅ "s3cret" "sha256=good"
           (Error "Invalid key length")).
  - reflexivity.
  - discriminate.
  - reflexivity.
  - discriminate.
  - right. exists "payload-bytes". split; reflexivity.
Defined.

(** *** The dispatcher on its own *)

(** X6. The dispatcher returns a result exactly when the endpoint answers
    with a success response whose JSON body parses to a value other than
    null; the status code itself is not looked at. *)
Theorem callDevinAPI_returns_iff (w : World) (s : Store) (prompt : string)
    (result : DevinResult) :
  outcomeOf (callDevinAPI w prompt s) = Ok result <-> dispatchSucceeds w prompt result.
Proof.
  split.
  - pose (Q := fun (r : Outcome DevinResult) (s' : Store) (t : list Effect) =>
            r = Ok result -> dispatchSucceeds w prompt result).
    apply (wp_elim (callDevinAPI w prompt) s Q).
    wp_run; subst Q; cbv beta.
    all: intros [= <-].
    eexists _, _, _. split_and!; try eassumption; try reflexivity.
    by destruct (ok _).
  - intros (response & data & sid & Hfetch & Hok & Hjson & Hsid & ->).
    assert (negb (ok response) = false) by (by rewrite Hok).
    apply (wp_elim (callDevinAPI w prompt) s (fun r _ _ => r = Ok _)).
    wp_run. reflexivity.
Qed.

(** X7. Whatever the endpoint does, the dispatcher posts the prompt once,
    leaves the store alone, and when it fails it throws an error whose
    message starts with "Failed to call Devin API: ". *)
Theorem callDevinAPI_posts_once (w : World) (s : Store) (prompt : string) :
  posted (effectsOf (callDevinAPI w prompt s)) = [prompt]
  /\ calls isDispatcherCall (effectsOf (callDevinAPI w prompt s)) = 1%nat
  /\ storeOf (callDevinAPI w prompt s) = s
  /\ forall e, outcomeOf (callDevinAPI w prompt s) = Throw e ->
       exists cause, message e = "Failed to call Devin API: " +:+ cause
                     /\ calls isErrorLog (effectsOf (callDevinAPI w prompt s)) = 1%nat.
Proof.
  pose (Q := fun (r : Outcome DevinResult) (s' : Store) (t : list Effect) =>
          posted t = [prompt] /\ calls isDispatcherCall t = 1%nat /\ s' = s
          /\ forall e, r = Throw e ->
               exists cause, message e = "Failed to call Devin API: " +:+ cause
                             /\ calls isErrorLog t = 1%nat).
  apply (wp_elim (callDevinAPI w prompt) s Q).
  wp_run; subst Q; cbv beta.
  all: split_and!; try reflexivity.
  all: intros e' [= <-]; eexists; split; reflexivity.
Qed.

(** X8. The session identifier of a success response is kept as it is when
    it is truthy, of whatever JSON type; an empty string, zero, false or
    null is replaced by "unknown". *)
Theorem callDevinAPI_session_identifier (w : World) (s : Store) (prompt : string)
    (response : HttpResponse) (data id : JValue) :
  fetch w prompt = Ok response ->
  ok response = true ->
  bodyJson response = Ok data ->
  getProp data "sessionId" = Ok (Some id) ->
  outcomeOf (callDevinAPI w prompt s)
  = Ok {| sessionId := match id with
                       | JNull | JBool false | JNum 0 | JStr "" => JStr "unknown"
                       | _ => id
                       end;
          status := statusCode response |}.
Proof.
  intros Hfetch Hok Hjson Hid.
  assert (negb (ok response) = false) by (by rewrite Hok).
  apply (wp_elim (callDevinAPI w prompt) s (fun r _ _ => r = Ok _)).
  wp_run. f_equal. f_equal.
  destruct id as [|[]|[]|[|? ?]| |]; reflexivity.
Qed.

Lemma callDevinAPI_session_identifier_witness :
  outcomeOf (callDevinAPI goodWorld "Update the changelog" ∅)
  = Ok {| sessionId := JStr "devin-1"; status := 200 |}.
Proof.
  apply (callDevinAPI_session_identifier goodWorld ∅ "Update the changelog"
           (okResponse (JObj [("sessionId", JStr "devin-1")]))
           (JObj [("sessionId", JStr "devin-1")]) (JStr "devin-1")); reflexivity.
Defined.

Lemma truthyStr_None (o : option string) :
  negb (truthyStr o) = true -> o = None \/ o = Some "".
Proof.
  destruct o as [v|]; simpl; [|by left].
  rewrite negb_involutive. intros H%String.eqb_eq. right. by subst.
Qed.

Lemma notStrictEqStr_true_inv (v : option JValue) (lit : string) :
  notStrictEqStr v lit = true -> v <> Some (JStr lit).
Proof.
  intros H ->. simpl in H. by rewrite String.eqb_refl in H.
Qed.

Lemma notStrictEqStr_false_inv (v : option JValue) (lit : string) :
  notStrictEqStr v lit = false -> v = Some (JStr lit).
Proof.
  destruct v as [[]|]; simpl; try done.
  intros H%negb_false_iff%String.eqb_eq. by subst.
Qed.

Lemma not_recorded_inv (s : Store) (k : string * string) :
  bool_decide (is_Some (s !! k)) = false -> s !! k = None.
Proof.
  intros H%bool_decide_eq_false_1. destruct (s !! k) eqn:E; [|done].
  exfalso. apply H. by eexists.
Qed.

Lemma getProp_throw_inv (v : JValue) (prop : string) (e : Exn) :
  getProp v prop = Throw e -> v = JNull /\ e = nullPropertyError prop.
Proof. destruct v; simpl; intros [=]; by subst. Qed.

(** Turn the tests met on a path into the facts they stand for. *)
Ltac path_facts :=
  repeat match goal with
    | H : bool_decide (_ = _) = true |- _ => apply bool_decide_eq_true_1 in H
    | H : bool_decide (_ = _) = false |- _ => apply bool_decide_eq_false_1 in H
    | H : bool_decide (is_Some _) = true |- _ => apply bool_decide_eq_true_1 in H
    | H : bool_decide (is_Some _) = false |- _ => apply not_recorded_inv in H
    | H : negb (truthyStr _) = false |- _ =>
        apply truthyStr_Some in H; destruct H as (? & H & ?); try rewrite H in *
    | H : negb (truthyStr _) = true |- _ => apply truthyStr_None in H
    | H : getProp _ "payload" = Throw _ |- _ =>
        apply getProp_throw_inv in H; destruct H as [-> ->]
    | H : negb _ || negb _ = false |- _ =>
        apply orb_false_iff in H; destruct H as [?%negb_false_iff ?%negb_false_iff]
    | H : negb _ || negb _ = true |- _ =>
        apply orb_true_iff in H; rewrite !negb_true_iff in H
    | H : notStrictEqStr _ _ = true |- _ => apply notStrictEqStr_true_inv in H
    | H : notStrictEqStr _ _ = false |- _ => apply notStrictEqStr_false_inv in H
    | H : negb (ok _) = false |- _ => apply negb_false_iff in H
    | H : negb (ok _) = true |- _ => apply negb_true_iff in H
    end;
  simpl default in *.

(** The gate fact of a path, from the tests met at the gate. *)
Ltac gate_fact :=
  match goal with
  | Htext : req_data_text ?w = Ok ?text |- _ =>
      first
        [ match goal with
          | Hd : env_AGENTUITY_ENVIRONMENT w = Some "development" |- _ =>
              pose proof (gate_development w text Hd)
          end
        | match goal with
          | Hd : env_AGENTUITY_ENVIRONMENT w <> _,
            Hs : env_GITHUB_WEBHOOK_SECRET w = Some ?sec, Hn1 : ?sec <> "",
            Hh : signatureHeader w = Some ?sig, Hn2 : ?sig <> "",
            Hv : verify w ?sec text ?sig = Ok true |- _ =>
              pose proof (gate_verified w text sec sig Hd Hs Hn1 Hh Hn2 Hv)
          end ]
  end.

Ltac solve_classified :=
  unfold Unseen, Classified; split_and?; eauto;
  try solve [ intros; congruence ].

Ltac solve_dispatch :=
  first [ solve [ eexists _, _, _; split_and!; eauto ]
        | solve [ intros ? (? & ? & ? & ? & ? & ? & ? & ?); congruence ] ].

Ltac deliver :=
  first
    [ solve [ eapply D_unreadable; eauto ]
    | solve [ eapply D_rejected; eauto;
              first [ eapply gate_no_header | eapply gate_no_secret
                    | eapply gate_invalid | eapply gate_exception ]; eauto ]
    | match goal with
      | Hg : gateOpened ?w ?text ?g |- Delivery _ ?s _ _ _ =>
          first
            [ solve [ eapply (D_unparsed w s text g); eauto ]
            | solve [ eapply (D_unclassified w s text g); eauto ]
            | solve [ eapply (D_ignored w s text g); eauto ]
            | solve [ eapply (D_lookup_failed w s text g); solve_classified ]
            | solve [ eapply (D_duplicate w s text g); solve_classified ]
            | solve [ eapply (D_unpublished w s text g); solve_classified ]
            | solve [ eapply (D_unsynthesized w s text g); solve_classified ]
            | solve [ eapply (D_undispatched w s text g);
                      first [ solve_dispatch | solve_classified ] ]
            | solve [ eapply (D_unrecorded w s text g);
                      first [ solve_dispatch | solve_classified ] ]
            | solve [ eapply (D_success w s text g);
                      first [ solve_dispatch | solve_classified ] ] ]
      end ].

(** Every delivery goes one of the ways of [Delivery]. *)
Lemma ChangelogAgent_delivery (w : World) (s : Store) :
  Delivery w s (outcomeOf (ChangelogAgent w s)) (storeOf (ChangelogAgent w s))
    (effectsOf (ChangelogAgent w s)).
Proof.
  apply (wp_elim (ChangelogAgent w) s (Delivery w s)).
  wp_run.
  all: path_facts; try gate_fact.
  all: deliver.
Qed.

(** Reasoning by cases on the way a delivery went. *)
Ltac delivery_cases w s :=
  unfold answered in *;
  let Hd := fresh "Hd" in
  pose proof (ChangelogAgent_delivery w s) as Hd;
  revert Hd;
  generalize (outcomeOf (ChangelogAgent w s)), (storeOf (ChangelogAgent w s)),
    (effectsOf (ChangelogAgent w s));
  intros ? ? ? Hd; destruct Hd.

(** Take the path conditions apart and identify what they determine twice. *)
Ltac path_split :=
  repeat match goal with
    | H : Unseen _ _ _ _ _ _ |- _ => destruct H as (? & ? & ? & ?)
    | H : Classified _ _ _ _ _ |- _ => destruct H as (? & ? & (? & ? & ?) & ? & ? & ?)
    | H : hasStatus _ _ |- _ => destruct H as (? & ? & ?)
    | H : _ /\ _ |- _ => destruct H
    | H : exists _, _ |- _ => destruct H
    | H1 : ?x = Ok _, H2 : ?x = Ok _ |- _ => rewrite H1 in H2; injection H2 as ?; subst
    | H1 : ?x = Ok _, H2 : ?x = Throw _ |- _ => rewrite H1 in H2; discriminate H2
    | H1 : ?x = Throw _, H2 : ?x = Throw _ |- _ => rewrite H1 in H2; injection H2 as ?; subst
    | H1 : ?x = Some _, H2 : ?x = Some _ |- _ => rewrite H1 in H2; injection H2 as ?; subst
    | H1 : ?x = Some _, H2 : ?x = None |- _ => rewrite H1 in H2; discriminate H2
    | H1 : is_Some ?x, H2 : ?x = None |- _ => rewrite H2 in H1; by destruct H1
    | H : getProp JNull _ = Ok _ |- _ => discriminate H
    | H : Ok _ = Ok _ |- _ => injection H as ?; subst
    | H : Some _ = Some _ |- _ => injection H as ?; subst
    end.

Ltac dispatch_split :=
  repeat match goal with
    | H : dispatchSucceeds _ _ _ |- _ => destruct H as (? & ? & ? & ? & ? & ? & ? & ?)
    end;
  path_split.

Ltac gate_split :=
  repeat match goal with
    | H : gateOpened _ _ _ |- _ => destruct H
    | H : gateClosed _ _ _ _ |- _ => destruct H
    end.

(** *** Every delivery *)

(** X9. The stages of a delivery run in the order of the pipeline, each at
    most once: the log is a prefix of verify, classify, lookup, synthesize,
    dispatch, post, record, with or without the verify stage. *)
Theorem stages_run_in_order (w : World) (s : Store) :
  stagesOf (effectsOf (ChangelogAgent w s)) `prefix_of` SVerify :: PIPELINE
  \/ stagesOf (effectsOf (ChangelogAgent w s)) `prefix_of` PIPELINE.
Proof.
  delivery_cases w s; path_split; gate_split.
  all: first [ left; eexists; reflexivity | right; eexists; reflexivity ].
Qed.

(** X10. A delivery never overwrites or deletes a record: every key bound in
    the store before is bound to the same record after. *)
Theorem existing_records_are_kept (w : World) (s : Store)
    (k : string * string) (v : ProcessedEventRecord) :
  s !! k = Some v ->
  storeOf (ChangelogAgent w s) !! k = Some v.
Proof.
  intros Hk. delivery_cases w s; try assumption.
  path_split. rewrite lookup_insert_ne; [assumption | congruence].
Qed.

Lemma existing_records_are_kept_witness :
  storeOf (ChangelogAgent goodWorld {[ sampleKey := sampleRecord ]}) !! sampleKey
  = Some sampleRecord.
Proof.
  apply (existing_records_are_kept goodWorld {[ sampleKey := sampleRecord ]}).
  reflexivity.
Defined.

(** Close a case whose conditions contradict what is known. *)
Ltac path_clash :=
  path_split; gate_split; path_split;
  repeat match goal with
    | H : _ \/ _ |- _ => destruct H; path_split
    | Hi : ?P -> _, Hp : ?P |- _ => specialize (Hi Hp)
    end;
  try solve
    [ exfalso;
      first [ congruence
            | match goal with
              | Hn : forall r, ~ dispatchSucceeds _ _ r |- _ => eapply Hn; eassumption
              end
            | dispatch_split; congruence ] ].

(** X11. Only a delivery answered [success] changes the store.  It adds one
    record, under the event key of the classified event, which was not bound
    before; the record holds the repository, version and event type of the
    analysis, the time of the clock, and the session identifier that the
    response carries. *)
Theorem store_changes_only_on_success (w : World) (s : Store) :
  (~ answered "success" (ChangelogAgent w s) -> storeOf (ChangelogAgent w s) = s)
  /\ (answered "success" (ChangelogAgent w s) ->
      exists analysis result,
        s !! (KV_NAMESPACE, eventKeyOf analysis) = None
        /\ storeOf (ChangelogAgent w s)
           = <[(KV_NAMESPACE, eventKeyOf analysis) := recordOf w analysis result]> s
        /\ outcomeOf (ChangelogAgent w s) = Ok (successResponse analysis result)).
Proof.
  delivery_cases w s.
  all: split; [ try done | intros (resp & [= <-] & Hstatus); try discriminate Hstatus ].
  - intros Hn. exfalso. apply Hn. by eexists.
  - path_split. by eexists _, _.
Qed.

Lemma store_changes_only_on_success_witness :
  exists analysis result,
    (∅ : Store) !! (KV_NAMESPACE, eventKeyOf analysis) = None
    /\ storeOf (ChangelogAgent goodWorld ∅)
       = <[(KV_NAMESPACE, eventKeyOf analysis) := recordOf goodWorld analysis result]> ∅
    /\ outcomeOf (ChangelogAgent goodWorld ∅) = Ok (successResponse analysis result).
Proof.
  apply (store_changes_only_on_success goodWorld ∅).
  eexists. split; reflexivity.
Defined.

(** X12. A delivery answered [ignored] or [already_processed] has called
    neither the synthesizer nor the dispatcher, has posted nothing, has
    written nothing and has logged no error. *)
Theorem no_dispatch_when_ignored_or_duplicate (w : World) (s : Store) :
  answered "ignored" (ChangelogAgent w s) \/ answered "already_processed" (ChangelogAgent w s) ->
  calls isSynthesizerCall (effectsOf (ChangelogAgent w s)) = 0%nat
  /\ calls isDispatcherCall (effectsOf (ChangelogAgent w s)) = 0%nat
  /\ posted (effectsOf (ChangelogAgent w s)) = []
  /\ calls isStoreWrite (effectsOf (ChangelogAgent w s)) = 0%nat
  /\ calls isErrorLog (effectsOf (ChangelogAgent w s)) = 0%nat
  /\ storeOf (ChangelogAgent w s) = s.
Proof.
  delivery_cases w s.
  all: intros [(resp & [= <-] & Hstatus) | (resp & [= <-] & Hstatus)];
       try discriminate Hstatus.
  all: path_split; gate_split; by split_and!.
Qed.

Lemma no_dispatch_when_ignored_or_duplicate_witness :
  calls isSynthesizerCall (effectsOf (ChangelogAgent unsupportedWorld ∅)) = 0%nat
  /\ calls isDispatcherCall (effectsOf (ChangelogAgent unsupportedWorld ∅)) = 0%nat
  /\ posted (effectsOf (ChangelogAgent unsupportedWorld ∅)) = []
  /\ calls isStoreWrite (effectsOf (ChangelogAgent unsupportedWorld ∅)) = 0%nat
  /\ calls isErrorLog (effectsOf (ChangelogAgent unsupportedWorld ∅)) = 0%nat
  /\ storeOf (ChangelogAgent unsupportedWorld ∅) = ∅.
Proof.
  apply (no_dispatch_when_ignored_or_duplicate unsupportedWorld ∅).
  left. eexists. split; reflexivity.
Defined.

(** X13. A response has the status [error] exactly when the delivery logged
    at the error level. *)
Theorem error_response_iff_error_log (w : World) (s : Store) :
  answered "error" (ChangelogAgent w s)
  <-> calls isErrorLog (effectsOf (ChangelogAgent w s)) <> 0%nat.
Proof.
  delivery_cases w s; path_split; gate_split.
  all: split;
    [ intros (resp & [= <-] & Hstatus); first [ discriminate Hstatus | simpl; discriminate ]
    | intros Hlog;
      first [ exfalso; apply Hlog; reflexivity | eexists; split; reflexivity ] ].
Qed.


(** X15. When a delivery fulfils the conditions of a dispatch, the response
    is the success response of the analysis with the session identifier of
    the endpoint, the store gains the record under the event key, and every
    stage of the pipeline has run once. *)
Theorem dispatched_result (w : World) (s : Store) (analysis : WebhookAnalysis)
    (result : DevinResult) :
  Dispatched w s analysis result ->
  outcomeOf (ChangelogAgent w s) = Ok (successResponse analysis result)
  /\ storeOf (ChangelogAgent w s)
     = <[(KV_NAMESPACE, eventKeyOf analysis) := recordOf w analysis result]> s
  /\ (stagesOf (effectsOf (ChangelogAgent w s)) = PIPELINE
      \/ stagesOf (effectsOf (ChangelogAgent w s)) = SVerify :: PIPELINE)
  /\ calls isDispatcherCall (effectsOf (ChangelogAgent w s)) = 1%nat
  /\ calls isErrorLog (effectsOf (ChangelogAgent w s)) = 0%nat.
Proof.
  intros (text' & g' & payload' & prompt' & Hu & Hp & Hd & Hset).
  delivery_cases w s.
  all: try solve [ path_clash ].
  path_split. dispatch_split.
  gate_split; split_and!; try reflexivity; first [ by left | by right ].
Qed.

Lemma dispatched_result_witness :
  outcomeOf (ChangelogAgent goodWorld ∅)
  = Ok (successResponse (sampleAnalysis "sdk-js" "v1.4.0") sampleResult)
  /\ storeOf (ChangelogAgent goodWorld ∅)
     = <[(KV_NAMESPACE, eventKeyOf (sampleAnalysis "sdk-js" "v1.4.0"))
         := recordOf goodWorld (sampleAnalysis "sdk-js" "v1.4.0") sampleResult]> ∅
  /\ (stagesOf (effectsOf (ChangelogAgent goodWorld ∅)) = PIPELINE
      \/ stagesOf (effectsOf (ChangelogAgent goodWorld ∅)) = SVerify :: PIPELINE)
  /\ calls isDispatcherCall (effectsOf (ChangelogAgent goodWorld ∅)) = 1%nat
  /\ calls isErrorLog (effectsOf (ChangelogAgent goodWorld ∅)) = 0%nat.
Proof.
  apply (dispatched_result goodWorld ∅ (sampleAnalysis "sdk-js" "v1.4.0") sampleResult).
  exists "payload-bytes",
    [EVerify "s3cret" "payload-bytes" "sha256=good";
     ELog info "Webhook signature verified successfully"],
    (Some (JObj [("action", JStr "published")])), "Update the changelog".
  unfold Unseen, Classified, dispatchSucceeds. split_and!; try reflexivity.
  - apply gate_verified; first [ reflexivity | discriminate ].
  - eexists. split; reflexivity.
  - eexists _, _, _. split_and!; reflexivity.
Defined.

(** *** A failure at each stage *)

(** X16. When the body of the request cannot be read, nothing else happens:
    the delivery is answered [error] with the message of the read error,
    and the only effect is the error log of the top-level handler. *)
Theorem unreadable_body_stops_at_once (w : World) (s : Store) (e : Exn) :
  req_data_text w = Throw e ->
  outcomeOf (ChangelogAgent w s) = Ok (errorResponse e)
  /\ storeOf (ChangelogAgent w s) = s
  /\ effectsOf (ChangelogAgent w s) = [ELog error "Error processing webhook: %o"].
Proof.
  intros Htext. delivery_cases w s.
  all: try solve [ path_clash ].
  path_split. by split_and!.
Qed.

Lemma unreadable_body_stops_at_once_witness :
  outcomeOf (ChangelogAgent unreadableWorld ∅) = Ok (errorResponse (Error "Body is unusable"))
  /\ storeOf (ChangelogAgent unreadableWorld ∅) = ∅
  /\ effectsOf (ChangelogAgent unreadableWorld ∅) = [ELog error "Error processing webhook: %o"].
Proof. apply (unreadable_body_stops_at_once unreadableWorld ∅). reflexivity. Defined.

(** X17. A request whose body is the JSON value null is answered [error] and
    is never classified. *)
Theorem null_body_is_an_error (w : World) (s : Store) :
  req_data_object w = Ok JNull ->
  answered "error" (ChangelogAgent w s)
  /\ calls isClassifierCall (effectsOf (ChangelogAgent w s)) = 0%nat
  /\ storeOf (ChangelogAgent w s) = s.
Proof.
  intros Hnull. delivery_cases w s.
  all: try solve [ path_clash ].
  all: gate_split; split_and!; first [ reflexivity | eexists; split; reflexivity ].
Qed.

Lemma null_body_is_an_error_witness :
  answered "error" (ChangelogAgent nullBodyWorld ∅)
  /\ calls isClassifierCall (effectsOf (ChangelogAgent nullBodyWorld ∅)) = 0%nat
  /\ storeOf (ChangelogAgent nullBodyWorld ∅) = ∅.
Proof. apply (null_body_is_an_error nullBodyWorld ∅). reflexivity. Defined.

(** X18. When the classifier throws, the delivery is answered [error] with
    the classifier's message if it was called, and in every case the store
    is not looked up and nothing is synthesized or dispatched. *)
Theorem classifier_failure_stops_the_pipeline (w : World) (s : Store)
    (payloadText : string) (e : Exn) :
  req_data_text w = Ok payloadText ->
  generateObject w (analysisPrompt payloadText) = Throw e ->
  answered "error" (ChangelogAgent w s)
  /\ (calls isClassifierCall (effectsOf (ChangelogAgent w s)) <> 0%nat ->
      outcomeOf (ChangelogAgent w s) = Ok (errorResponse e))
  /\ calls isStoreLookup (effectsOf (ChangelogAgent w s)) = 0%nat
  /\ calls isSynthesizerCall (effectsOf (ChangelogAgent w s)) = 0%nat
  /\ calls isDispatcherCall (effectsOf (ChangelogAgent w s)) = 0%nat
  /\ storeOf (ChangelogAgent w s) = s.
Proof.
  intros Htext Hclass. delivery_cases w s.
  all: try solve [ path_clash ].
  all: path_split; gate_split; split_and!;
       first [ reflexivity | eexists; split; reflexivity
             | intros Hc; exfalso; apply Hc; reflexivity ].
Qed.

Lemma classifier_failure_stops_the_pipeline_witness :
  answered "error" (ChangelogAgent classifierFaultWorld ∅)
  /\ (calls isClassifierCall (effectsOf (ChangelogAgent classifierFaultWorld ∅)) <> 0%nat ->
      outcomeOf (ChangelogAgent classifierFaultWorld ∅)
      = Ok (errorResponse (Error "rate limit exceeded")))
  /\ calls isStoreLookup (effectsOf (ChangelogAgent classifierFaultWorld ∅)) = 0%nat
  /\ calls isSynthesizerCall (effectsOf (ChangelogAgent classifierFaultWorld ∅)) = 0%nat
  /\ calls isDispatcherCall (effectsOf (ChangelogAgent classifierFaultWorld ∅)) = 0%nat
  /\ storeOf (ChangelogAgent classifierFaultWorld ∅) = ∅.
Proof.
  apply (classifier_failure_stops_the_pipeline classifierFaultWorld ∅ "payload-bytes");
    reflexivity.
Defined.

(** X19. When the store cannot be read, the pipeline fails closed: nothing is
    synthesized, dispatched or written, the answer is neither [success] nor
    [already_processed], and a delivery that reached the lookup is answered
    [error] with the message of the store's error. *)
Theorem lookup_failure_fails_closed (w : World) (s : Store) (e : Exn) :
  kv_get_fault w = Some e ->
  calls isSynthesizerCall (effectsOf (ChangelogAgent w s)) = 0%nat
  /\ calls isDispatcherCall (effectsOf (ChangelogAgent w s)) = 0%nat
  /\ calls isStoreWrite (effectsOf (ChangelogAgent w s)) = 0%nat
  /\ storeOf (ChangelogAgent w s) = s
  /\ ~ answered "success" (ChangelogAgent w s)
  /\ ~ answered "already_processed" (ChangelogAgent w s)
  /\ (calls isStoreLookup (effectsOf (ChangelogAgent w s)) <> 0%nat ->
      outcomeOf (ChangelogAgent w s) = Ok (errorResponse e)).
Proof.
  intros Hfault. delivery_cases w s.
  all: try solve [ path_clash ].
  all: path_split; gate_split; split_and!;
       first [ reflexivity
             | intros (resp & [= <-] & Hstatus); discriminate Hstatus
             | intros Hc; exfalso; apply Hc; reflexivity ].
Qed.

Lemma lookup_failure_fails_closed_witness :
  calls isSynthesizerCall (effectsOf (ChangelogAgent lookupFaultWorld ∅)) = 0%nat
  /\ calls isDispatcherCall (effectsOf (ChangelogAgent lookupFaultWorld ∅)) = 0%nat
  /\ calls isStoreWrite (effectsOf (ChangelogAgent lookupFaultWorld ∅)) = 0%nat
  /\ storeOf (ChangelogAgent lookupFaultWorld ∅) = ∅
  /\ ~ answered "success" (ChangelogAgent lookupFaultWorld ∅)
  /\ ~ answered "already_processed" (ChangelogAgent lookupFaultWorld ∅)
  /\ (calls isStoreLookup (effectsOf (ChangelogAgent lookupFaultWorld ∅)) <> 0%nat ->
      outcomeOf (ChangelogAgent lookupFaultWorld ∅)
      = Ok (errorResponse (Error "kv unavailable"))).
Proof. apply (lookup_failure_fails_closed lookupFaultWorld ∅). reflexivity. Defined.

(** X20. When the synthesizer throws, the dispatcher is never called, nothing
    is posted or written and the store is left as it was. *)
Theorem synthesizer_failure_prevents_dispatch (w : World) (s : Store)
    (payloadText : string) (analysis : WebhookAnalysis) (e : Exn) :
  req_data_text w = Ok payloadText ->
  generateObject w (analysisPrompt payloadText) = Ok analysis ->
  generateText w (devinPromptRequest analysis payloadText) = Throw e ->
  calls isDispatcherCall (effectsOf (ChangelogAgent w s)) = 0%nat
  /\ posted (effectsOf (ChangelogAgent w s)) = []
  /\ calls isStoreWrite (effectsOf (ChangelogAgent w s)) = 0%nat
  /\ storeOf (ChangelogAgent w s) = s
  /\ ~ answered "success" (ChangelogAgent w s)
  /\ (calls isSynthesizerCall (effectsOf (ChangelogAgent w s)) <> 0%nat ->
      outcomeOf (ChangelogAgent w s) = Ok (errorResponse e)).
Proof.
  intros Htext Hclass Hsynth. delivery_cases w s.
  all: try solve [ path_clash ].
  all: path_split; gate_split; split_and!;
       first [ reflexivity
             | intros (resp & [= <-] & Hstatus); discriminate Hstatus
             | intros Hc; exfalso; apply Hc; reflexivity ].
Qed.

Lemma synthesizer_failure_prevents_dispatch_witness :
  calls isDispatcherCall (effectsOf (ChangelogAgent synthesizerFaultWorld ∅)) = 0%nat
  /\ posted (effectsOf (ChangelogAgent synthesizerFaultWorld ∅)) = []
  /\ calls isStoreWrite (effectsOf (ChangelogAgent synthesizerFaultWorld ∅)) = 0%nat
  /\ storeOf (ChangelogAgent synthesizerFaultWorld ∅) = ∅
  /\ ~ answered "success" (ChangelogAgent synthesizerFaultWorld ∅)
  /\ (calls isSynthesizerCall (effectsOf (ChangelogAgent synthesizerFaultWorld ∅)) <> 0%nat ->
      outcomeOf (ChangelogAgent synthesizerFaultWorld ∅)
      = Ok (errorResponse (Error "model overloaded"))).
Proof.
  apply (synthesizer_failure_prevents_dispatch synthesizerFaultWorld ∅ "payload-bytes"
           (sampleAnalysis "sdk-js" "v1.4.0")); reflexivity.
Defined.

(** *** The gate, the published check and redelivery *)



(** X22. The published check is made of release events only: a classified
    event of another type whose key is not in the store goes on to the
    synthesizer whatever the action of the payload, and is not answered
    [ignored]. *)
Theorem tag_events_skip_published_check (w : World) (s : Store) (payloadText : string)
    (g : list Effect) (payload : option JValue) (analysis : WebhookAnalysis) :
  Classified w payloadText g payload analysis ->
  eventType analysis <> release ->
  kv_get_fault w = None ->
  s !! (KV_NAMESPACE, eventKeyOf analysis) = None ->
  calls isSynthesizerCall (effectsOf (ChangelogAgent w s)) = 1%nat
  /\ ~ answered "ignored" (ChangelogAgent w s).
Proof.
  intros Hc Htype Hget Hnew. delivery_cases w s.
  all: try solve [ path_clash ].
  all: path_split; gate_split; split;
       first [ reflexivity | intros (resp & [= <-] & Hstatus); discriminate Hstatus ].
Qed.

Lemma tag_events_skip_published_check_witness :
  calls isSynthesizerCall (effectsOf (ChangelogAgent tagWorld ∅)) = 1%nat
  /\ ~ answered "ignored" (ChangelogAgent tagWorld ∅).
Proof.
  apply (tag_events_skip_published_check tagWorld ∅ "payload-bytes"
           [EVerify "s3cret" "payload-bytes" "sha256=good";
            ELog info "Webhook signature verified successfully"]
           (Some (JObj [("action", JStr "created")])) tagAnalysis).
  - unfold Classified. split_and!; try reflexivity.
    + apply gate_verified; first [ reflexivity | discriminate ].
    + eexists. split; reflexivity.
  - discriminate.
  - reflexivity.
  - reflexivity.
Defined.

(** X23. The action is read from the [payload] property of the body.  When
    the body has no such property, a release event is never synthesized or
    dispatched, whatever else the body holds. *)
Theorem release_without_payload_property_stops (w : World) (s : Store) (body : JValue)
    (payloadText : string) (analysis : WebhookAnalysis) :
  req_data_object w = Ok body ->
  getProp body "payload" = Ok None ->
  req_data_text w = Ok payloadText ->
  generateObject w (analysisPrompt payloadText) = Ok analysis ->
  eventType analysis = release ->
  calls isSynthesizerCall (effectsOf (ChangelogAgent w s)) = 0%nat
  /\ calls isDispatcherCall (effectsOf (ChangelogAgent w s)) = 0%nat
  /\ storeOf (ChangelogAgent w s) = s
  /\ ~ answered "success" (ChangelogAgent w s).
Proof.
  intros Hbody Hprop Htext Hclass Htype. delivery_cases w s.
  all: try solve [ path_clash ].
  all: try solve [ path_split; exfalso;
                   match goal with
                   | H : eventType _ = release -> _ |- _ =>
                       specialize (H ltac:(assumption)); discriminate H
                   end ].
  all: path_split; gate_split; split_and!;
       first [ reflexivity | intros (resp & [= <-] & Hstatus); discriminate Hstatus ].
Qed.

Lemma release_without_payload_property_stops_witness :
  calls isSynthesizerCall (effectsOf (ChangelogAgent unwrappedBodyWorld ∅)) = 0%nat
  /\ calls isDispatcherCall (effectsOf (ChangelogAgent unwrappedBodyWorld ∅)) = 0%nat
  /\ storeOf (ChangelogAgent unwrappedBodyWorld ∅) = ∅
  /\ ~ answered "success" (ChangelogAgent unwrappedBodyWorld ∅).
Proof.
  apply (release_without_payload_property_stops unwrappedBodyWorld ∅
           (JObj [("action", JStr "published")]) "payload-bytes"
           (sampleAnalysis "sdk-js" "v1.4.0")); reflexivity.
Defined.

(** X24. A success response of the endpoint whose body is not JSON, or is the
    JSON value null, counts as a failed dispatch although the prompt was
    posted: the delivery is answered [error] with a message that starts
    with "Failed to call Devin API: ", and nothing is written, so the same
    event will be dispatched again when it is delivered again. *)
Theorem unusable_endpoint_body_is_an_error (w : World) (s : Store) (prompt : string)
    (response : HttpResponse) :
  In prompt (posted (effectsOf (ChangelogAgent w s))) ->
  fetch w prompt = Ok response ->
  ok response = true ->
  (exists e, bodyJson response = Throw e) \/ bodyJson response = Ok JNull ->
  (exists cause,
     outcomeOf (ChangelogAgent w s)
     = Ok (errorResponse (Error ("Failed to call Devin API: " +:+ cause))))
  /\ calls isStoreWrite (effectsOf (ChangelogAgent w s)) = 0%nat
  /\ storeOf (ChangelogAgent w s) = s.
Proof.
  intros Hposted Hfetch Hok Hbody. revert Hposted. delivery_cases w s.
  all: intros Hposted; path_split; gate_split; simpl in Hposted.
  all: repeat match goal with H : _ \/ False |- _ => destruct H as [H|[]] | H : False |- _ => destruct H end.
  all: subst.
  all: try solve [ exfalso; dispatch_split; destruct Hbody as [[? ?] | ?]; path_split; congruence ].
  all: split_and!; first [ reflexivity | eexists; reflexivity ].
Qed.

Lemma unusable_endpoint_body_is_an_error_witness :
  (exists cause,
     outcomeOf (ChangelogAgent htmlEndpointWorld ∅)
     = Ok (errorResponse (Error ("Failed to call Devin API: " +:+ cause))))
  /\ calls isStoreWrite (effectsOf (ChangelogAgent htmlEndpointWorld ∅)) = 0%nat
  /\ storeOf (ChangelogAgent htmlEndpointWorld ∅) = ∅.
Proof.
  apply (unusable_endpoint_body_is_an_error htmlEndpointWorld ∅ "Update the changelog"
           htmlResponse).
  - vm_compute. left. reflexivity.
  - reflexivity.
  - reflexivity.
  - left. eexists. reflexivity.
Defined.

Lemma calls_app (p : Effect -> bool) (t1 t2 : list Effect) :
  calls p (t1 ++ t2) = (calls p t1 + calls p t2)%nat.
Proof. unfold calls. by rewrite List.filter_app, length_app. Qed.

Lemma gateOpened_sameDelivery (w1 w2 : World) (payloadText : string) (g : list Effect) :
  sameDelivery w1 w2 -> gateOpened w1 payloadText g -> gateOpened w2 payloadText g.
Proof.
  intros (E1 & E2 & E3 & E4 & E5 & E6 & E7) [Hdev | secret signature Hdev Hsecret Hs Hsig Hg Hv].
  - apply gate_development. congruence.
  - apply gate_verified; unfold signatureHeader in *; congruence.
Qed.

Lemma Unseen_sameAnswers (w1 w2 : World) (s : Store) (payloadText : string)
    (g : list Effect) (payload : option JValue) (analysis : WebhookAnalysis) :
  sameAnswers w1 w2 ->
  Unseen w1 s payloadText g payload analysis -> Unseen w2 s payloadText g payload analysis.
Proof.
  intros (Hsame & E8 & E9 & E10) ((Htext & Hgate & (body & Hbody & Hprop) & Hclass & Hr & Hsup)
                                  & Hget & Hnew & Hpub).
  pose proof (gateOpened_sameDelivery _ _ _ _ Hsame Hgate).
  destruct Hsame as (E1 & E2 & E3 & E4 & E5 & E6 & E7).
  unfold Unseen, Classified. split_and!; try done; try congruence.
  exists body. split; congruence.
Qed.

Lemma dispatchSucceeds_same_endpoint (w1 w2 : World) (prompt : string) (result : DevinResult) :
  fetch w1 = fetch w2 -> dispatchSucceeds w1 prompt result -> dispatchSucceeds w2 prompt result.
Proof. intros E. unfold dispatchSucceeds. by rewrite E. Qed.

(** X25. Delivery is at least once, not exactly once.  When the prompt was
    dispatched but the store write failed, the delivery is answered [error]
    and leaves no record; the same delivery made again, with a store that
    now takes the record, dispatches the prompt a second time. *)
Theorem failed_record_is_dispatched_again (w1 w2 : World) (s : Store) (e : Exn) :
  calls isStoreWrite (effectsOf (ChangelogAgent w1 s)) <> 0%nat ->
  kv_set_fault w1 = Some e ->
  sameAnswers w1 w2 ->
  kv_set_fault w2 = None ->
  answered "error" (ChangelogAgent w1 s)
  /\ storeOf (ChangelogAgent w1 s) = s
  /\ answered "success" (ChangelogAgent w2 (storeOf (ChangelogAgent w1 s)))
  /\ calls isDispatcherCall
       (effectsOf (ChangelogAgent w1 s)
        ++ effectsOf (ChangelogAgent w2 (storeOf (ChangelogAgent w1 s)))) = 2%nat.
Proof.
  intros Hwrite Hfault Hsame Hset. revert Hwrite. delivery_cases w1 s.
  all: intros Hwrite.
  all: try solve [ path_clash ].
  all: try solve [ exfalso; path_split; gate_split; apply Hwrite; reflexivity ].
  pose proof (Unseen_sameAnswers _ _ _ _ _ _ _ Hsame ltac:(eassumption)) as Hunseen.
  destruct Hsame as (_ & Etext & Efetch & _).
  assert (Hprompt : generateText w2 (devinPromptRequest analysis payloadText) = Ok prompt)
    by congruence.
  assert (Hdispatch : dispatchSucceeds w2 prompt result)
    by (by eapply dispatchSucceeds_same_endpoint).
  rewrite calls_app.
  delivery_cases w2 s.
  all: try solve [ path_clash ].
  path_split. dispatch_split. gate_split.
  all: split_and!; first [ reflexivity | eexists; split; reflexivity ].
Qed.

Lemma failed_record_is_dispatched_again_witness :
  answered "error" (ChangelogAgent storeFaultWorld ∅)
  /\ storeOf (ChangelogAgent storeFaultWorld ∅) = ∅
  /\ answered "success" (ChangelogAgent goodWorld (storeOf (ChangelogAgent storeFaultWorld ∅)))
  /\ calls isDispatcherCall
       (effectsOf (ChangelogAgent storeFaultWorld ∅)
        ++ effectsOf (ChangelogAgent goodWorld (storeOf (ChangelogAgent storeFaultWorld ∅))))
     = 2%nat.
Proof.
  apply (failed_record_is_dispatched_again storeFaultWorld goodWorld ∅ (Error "kv unavailable")).
  - vm_compute. discriminate.
  - reflexivity.
  - unfold sameAnswers, sameDelivery. split_and!; reflexivity.
  - reflexivity.
Defined.

(** Deliveries of an accepted event whose key is recorded are all answered
    [already_processed] and leave the store as it is. *)
Lemma deliverAll_recorded (w : World) (analysis : WebhookAnalysis) (ws : list World)
    (s : Store) :
  accepted w analysis ->
  is_Some (s !! (KV_NAMESPACE, eventKeyOf analysis)) ->
  Forall (fun w' => sameDelivery w w' /\ kv_get_fault w' = None) ws ->
  Forall (hasStatus "already_processed") (deliverAll ws s).1.1
  /\ (deliverAll ws s).1.2 = s
  /\ calls isDispatcherCall (deliverAll ws s).2 = 0%nat
  /\ calls isStoreWrite (deliverAll ws s).2 = 0%nat.
Proof.
  intros Hacc Hkey Hws. induction Hws as [|w' ws [Hsame Hget] _ IH]; [by split_and!|].
  destruct (accepted_duplicate w' s analysis) as (Hst & Hd & Hw & Hs); try done.
  { by eapply accepted_sameDelivery. }
  cbn [deliverAll fst snd]. rewrite Hs.
  destruct IH as (IH1 & IH2 & IH3 & IH4).
  rewrite !calls_app, Hd, Hw, IH3, IH4. split_and!; try done.
  by constructor.
Qed.

(** X26. Once a delivery is answered [success], any number of deliveries of
    the same event that follow, with a store that can be read, are answered
    [already_processed]; the store stays as the first delivery left it and
    the dispatcher is called once in all. *)
Theorem redeliveries_are_not_dispatched (w : World) (s : Store) (ws : list World) :
  answered "success" (ChangelogAgent w s) ->
  Forall (fun w' => sameDelivery w w' /\ kv_get_fault w' = None) ws ->
  Forall (hasStatus "already_processed")
    (deliverAll ws (storeOf (ChangelogAgent w s))).1.1
  /\ (deliverAll ws (storeOf (ChangelogAgent w s))).1.2 = storeOf (ChangelogAgent w s)
  /\ calls isDispatcherCall
       (effectsOf (ChangelogAgent w s) ++ (deliverAll ws (storeOf (ChangelogAgent w s))).2)
     = 1%nat.
Proof.
  intros (analysis & Hacc & Hkey & Hcalls)%success_inversion Hws.
  destruct (deliverAll_recorded w analysis ws _ Hacc Hkey Hws) as (H1 & H2 & H3 & _).
  by rewrite calls_app, Hcalls, H3.
Qed.

Lemma redeliveries_are_not_dispatched_witness :
  Forall (hasStatus "already_processed")
    (deliverAll [goodWorld; goodWorld] (storeOf (ChangelogAgent goodWorld ∅))).1.1
  /\ (deliverAll [goodWorld; goodWorld] (storeOf (ChangelogAgent goodWorld ∅))).1.2
     = storeOf (ChangelogAgent goodWorld ∅)
  /\ calls isDispatcherCall
       (effectsOf (ChangelogAgent goodWorld ∅)
        ++ (deliverAll [goodWorld; goodWorld] (storeOf (ChangelogAgent goodWorld ∅))).2)
     = 1%nat.
Proof.
  apply (redeliveries_are_not_dispatched goodWorld ∅ [goodWorld; goodWorld]).
  - eexists. split; reflexivity.
  - repeat constructor.
Defined.

Lemma append_separator_inj (a b x y : string) :
  hasSeparator a = false -> hasSeparator b = false ->
  a +:+ ":" +:+ x = b +:+ ":" +:+ y -> a = b /\ x = y.
Proof.
  revert b. induction a as [|c a IH]; intros [|d b]; simpl.
  - intros _ _ Heq. by simplify_eq.
  - intros _ Hb Heq. by simplify_eq.
  - intros Ha _ Heq. by simplify_eq.
  - intros [_ Ha]%orb_false_iff [_ Hb]%orb_false_iff Heq. simplify_eq.
    by destruct (IH b Ha Hb ltac:(eassumption)) as [-> ->].
Qed.

(** *** The event key, again *)

(** X27. The event key separates its fields with a colon and escapes
    nothing.  When neither the repository nor the version holds a colon,
    the key determines the repository, the version and the event type. *)
Theorem generateEventKey_injective_without_separator
    (repository1 version1 eventType1 repository2 version2 eventType2 : string) :
  hasSeparator repository1 = false -> hasSeparator version1 = false ->
  hasSeparator repository2 = false -> hasSeparator version2 = false ->
  generateEventKey repository1 version1 eventType1
  = generateEventKey repository2 version2 eventType2 ->
  repository1 = repository2 /\ version1 = version2 /\ eventType1 = eventType2.
Proof.
  intros Hr1 Hv1 Hr2 Hv2. unfold generateEventKey. simpl. intros [= Heq].
  destruct (append_separator_inj _ _ _ _ Hr1 Hr2 Heq) as [-> Heq'].
  destruct (append_separator_inj _ _ _ _ Hv1 Hv2 Heq') as [-> ->].
  done.
Qed.

Lemma generateEventKey_injective_without_separator_witness :
  "sdk-js" = "sdk-js" /\ "v1.4.0" = "v1.4.0" /\ "release" = "release".
Proof.
  apply (generateEventKey_injective_without_separator
           "sdk-js" "v1.4.0" "release" "sdk-js" "v1.4.0" "release"); reflexivity.
Defined.

(** X28. Outside development mode the signature alone decides whether a
    readable request passes the gate: the delivery logs a verified
    signature exactly when the signature function accepts the request, and
    otherwise it is answered [error] with one of the verifier's four
    messages, so the fallback message of the agent is never sent. *)
Theorem signature_gate_decides (w : World) (s : Store) (payloadText : string) :
  env_AGENTUITY_ENVIRONMENT w <> Some "development" ->
  req_data_text w = Ok payloadText ->
  (signatureValid w
   <-> In (ELog info "Webhook signature verified successfully")
          (effectsOf (ChangelogAgent w s)))
  /\ (~ signatureValid w ->
      exists m, In m VERIFICATION_MESSAGES
                /\ outcomeOf (ChangelogAgent w s)
                   = Ok [ ("status", JStr "error"); ("message", JStr m) ]).
Proof.
  intros Hdev Htext. delivery_cases w s.
  all: try solve [ path_clash ].
  all: path_split; gate_split; try congruence.
  all: unfold logToRecord, logToEndpoint, logToSynthesizer, logToLookup, logToClassifier,
         CAUGHT.
  all: split;
    [ split;
      [ intros (secret' & payload' & signature' & ? & ? & ? & ? & ? & ?); path_split;
        first [ simpl; tauto | exfalso; destruct_or?; congruence ]
      | intros Hin;
        first [ by eexists _, _, _
              | exfalso; simpl in Hin; destruct_or?; done ] ]
    | intros Hn;
      first [ eexists; split; [|reflexivity]; simpl; tauto
            | exfalso; apply Hn; by eexists _, _, _ ] ].
Qed.

Lemma signature_gate_decides_witness :
  (signatureValid unsignedWorld
   <-> In (ELog info "Webhook signature verified successfully")
          (effectsOf (ChangelogAgent unsignedWorld ∅)))
  /\ (~ signatureValid unsignedWorld ->
      exists m, In m VERIFICATION_MESSAGES
                /\ outcomeOf (ChangelogAgent unsignedWorld ∅)
                   = Ok [ ("status", JStr "error"); ("message", JStr m) ]).
Proof.
  apply (signature_gate_decides unsignedWorld ∅ "payload-bytes").
  - discriminate.
  - reflexivity.
Defined.
